(** * Terrain: heightfield patches, LOD index table and stitching

    A shallow embedding of [Source/Urho3D/Graphics/Terrain.cpp] and the
    properties its specification states about it.

    - C++ [int] / [unsigned] values are [Z]; unsigned operations have their
      32-bit wrap-around written out ([u32]), the [unsigned short] index
      type wraps at 16 bits ([u16]).
    - C++ [float] is IEEE-754 binary32 with round-to-nearest-even, taken
      from the standard library's [SpecFloat] at precision 24 and maximal
      exponent 128.
    - Heap objects reached through pointers (scene node, height image,
      patches, neighbour terrains) are records; a null pointer is [None]. *)

From Stdlib Require Import ZArith List Bool Lia.
From Stdlib Require Import Floats.SpecFloat.
Import ListNotations.

Local Open Scope Z_scope.

(* ================================================================== *)
(** ** Machine integers *)

Module MachineInt.

(** Wrap-around of [unsigned] (32 bits). *)
Definition u32 (n : Z) : Z := n mod 2 ^ 32.

(** Wrap-around of [unsigned short] (16 bits), the index type. *)
Definition u16 (n : Z) : Z := n mod 2 ^ 16.

(** Conversion of an [unsigned] to [int] (two's complement). *)
Definition s32 (n : Z) : Z :=
  let m := n mod 2 ^ 32 in
  if m <? 2 ^ 31 then m else m - 2 ^ 32.

(** C++ integer division and remainder truncate toward zero. *)
Definition cdiv (a b : Z) : Z := Z.quot a b.
Definition cmod (a b : Z) : Z := Z.rem a b.

(** [1u << i]. *)
Definition shl1 (i : Z) : Z := u32 (Z.shiftl 1 i).

End MachineInt.
Import MachineInt.

(* ================================================================== *)
(** ** Single-precision floats *)

Module F32.

Definition prec : Z := 24.
Definition emax : Z := 128.

Definition f32 : Type := spec_float.

Definition fadd : f32 -> f32 -> f32 := SFadd prec emax.
Definition fsub : f32 -> f32 -> f32 := SFsub prec emax.
Definition fmul : f32 -> f32 -> f32 := SFmul prec emax.
Definition fdiv : f32 -> f32 -> f32 := SFdiv prec emax.
Definition fsqrt : f32 -> f32 := SFsqrt prec emax.
Definition fneg : f32 -> f32 := SFopp.

(** Comparisons; every comparison with a NaN is false except [!=]. *)
Definition flt (a b : f32) : bool := SFltb a b.
Definition fle (a b : f32) : bool := SFleb a b.
Definition fgt (a b : f32) : bool := SFltb b a.
Definition fge (a b : f32) : bool := SFleb b a.
Definition feq (a b : f32) : bool := SFeqb a b.
Definition fne (a b : f32) : bool := negb (SFeqb a b).

(** The value [m * 2^e], rounded to binary32. *)
Definition lit (m e : Z) : f32 := binary_normalize prec emax m e false.

(** [(float)n] for an integer [n]. *)
Definition of_int (n : Z) : f32 := lit n 0.

Definition zero : f32 := S754_zero false.
Definition one : f32 := of_int 1.

(** Integer part, truncated toward zero, of a finite float. *)
Definition trunc (x : f32) : option Z :=
  match x with
  | S754_zero _ => Some 0
  | S754_finite s m e =>
      let a := match e with
               | Zneg _ => Z.shiftr (Zpos m) (- e)
               | _ => Z.shiftl (Zpos m) e
               end in
      Some (if s then - a else a)
  | _ => None
  end.

(** Whether a finite float is an integer. *)
Definition is_integral (x : f32) : bool :=
  match x with
  | S754_finite _ m e =>
      match e with
      | Zneg _ => Z.shiftl (Z.shiftr (Zpos m) (- e)) (- e) =? Zpos m
      | _ => true
      end
  | _ => true
  end.

(** [floorf]. *)
Definition ffloor (x : f32) : f32 :=
  match x with
  | S754_finite s _ _ =>
      if is_integral x then x
      else match trunc x with
           | Some t => if s then (if t =? 0 then fsub (S754_zero true) one
                                   else of_int (t - 1))
                       else (if t =? 0 then S754_zero false else of_int t)
           | None => x
           end
  | _ => x
  end.

(** [roundf]: to the nearest integer, halves away from zero; [None] when
    the argument is not finite. *)
Definition round_half_away (x : f32) : option Z :=
  match x with
  | S754_zero _ => Some 0
  | S754_finite s m e =>
      let a := match e with
               | Zneg _ => Z.shiftr (Z.shiftl (Zpos m) 1) (- e)
               | _ => Z.shiftl (Z.shiftl (Zpos m) 1) e
               end in
      (* a = floor (2 * |x|); |x| rounds to floor ((a + 1) / 2) *)
      let r := (a + 1) / 2 in
      Some (if s then - r else r)
  | _ => None
  end.


Definition is_finite (x : f32) : bool :=
  match x with S754_zero _ | S754_finite _ _ _ => true | _ => false end.

Definition is_zero (x : f32) : bool :=
  match x with S754_zero _ => true | _ => false end.

End F32.
Import F32.

(* ================================================================== *)
(** ** Math helpers used by the terrain code *)

Module MathDefs.

(** Modelled from the spec: [Clamp], [Max], [Min], [Abs], [Fract],
    [RoundToInt] and [IsPowerOfTwo] are templates of the engine's math
    header, which is not part of the excerpt.  The spec names them by
    what they do ("clamp (x,z) to [0,dim-1]", "clamps maxLodLevels to
    [1,4]", "power of two"); they are written here the way the header
    writes them, with the comparison the value goes through. *)
Definition Clamp (value lo hi : Z) : Z :=
  if value <? lo then lo else if value >? hi then hi else value.

Definition Max (a b : Z) : Z := if a >? b then a else b.
Definition Min (a b : Z) : Z := if a <? b then a else b.

Definition fMax (a b : f32) : f32 := if fgt a b then a else b.
Definition fMin (a b : f32) : f32 := if flt a b then a else b.
Definition fAbs (a : f32) : f32 := if fge a zero then a else fneg a.

Definition Fract (a : f32) : f32 := fsub a (ffloor a).

(** [static_cast<int>(round(x))]; a value that does not fit an [int]
    (not finite, or out of range) converts to the integer-indefinite
    value [INT_MIN], as the x86 conversion instruction yields. *)
Definition RoundToInt (a : f32) : Z :=
  match round_half_away a with
  | Some r => if (- 2 ^ 31 <=? r) && (r <? 2 ^ 31) then r else - 2 ^ 31
  | None => - 2 ^ 31
  end.

(** [(unsigned)x] for a float, truncating; out of range it wraps. *)
Definition to_unsigned (a : f32) : Z :=
  match trunc a with
  | Some t => u32 t
  | None => 0
  end.

Definition IsPowerOfTwo (value : Z) : bool :=
  (Z.land value (u32 (value - 1)) =? 0) && negb (value =? 0).

End MathDefs.
Import MathDefs.

(* ================================================================== *)
(** ** Vectors, rectangles, boxes *)

Record IntVector2 := mkIntVector2 { ix_ : Z; iy_ : Z }.
Record Vector2 := mkVector2 { x2_ : f32; y2_ : f32 }.
Record Vector3 := mkVector3 { x_ : f32; y_ : f32; z_ : f32 }.
Record IntRect := mkIntRect { left_ : Z; top_ : Z; right_ : Z; bottom_ : Z }.

Definition IntVector2_ZERO : IntVector2 := mkIntVector2 0 0.
Definition Vector2_ZERO : Vector2 := mkVector2 zero zero.
Definition Vector3_ZERO : Vector3 := mkVector3 zero zero zero.
Definition Vector3_UP : Vector3 := mkVector3 zero one zero.
Definition Vector3_RIGHT : Vector3 := mkVector3 one zero zero.

Definition IntVector2_eqb (a b : IntVector2) : bool :=
  (ix_ a =? ix_ b) && (iy_ a =? iy_ b).

(** [operator !=] of [IntVector2] and of [Vector3] (componentwise). *)
Definition IntVector2_ne (a b : IntVector2) : bool := negb (IntVector2_eqb a b).
Definition Vector3_ne (a b : Vector3) : bool :=
  negb (feq (x_ a) (x_ b) && feq (y_ a) (y_ b) && feq (z_ a) (z_ b)).

Definition v3add (a b : Vector3) : Vector3 :=
  mkVector3 (fadd (x_ a) (x_ b)) (fadd (y_ a) (y_ b)) (fadd (z_ a) (z_ b)).
Definition v3sub (a b : Vector3) : Vector3 :=
  mkVector3 (fsub (x_ a) (x_ b)) (fsub (y_ a) (y_ b)) (fsub (z_ a) (z_ b)).
Definition v3scale (a : Vector3) (k : f32) : Vector3 :=
  mkVector3 (fmul (x_ a) k) (fmul (y_ a) k) (fmul (z_ a) k).
Definition DotProduct (a b : Vector3) : f32 :=
  fadd (fadd (fmul (x_ a) (x_ b)) (fmul (y_ a) (y_ b))) (fmul (z_ a) (z_ b)).

(** Modelled from the spec: [Vector3::Normalized] ("the normalized sum",
    "normalize(right - normal*dot(normal,right))") belongs to the vector
    header outside the excerpt: the vector scaled by the inverse of its
    length, left alone when its squared length is zero or already one
    within 1e-6. *)
Definition M_EPSILON : f32 := fdiv (of_int 1) (of_int 1000000).
Definition Equals (a b : f32) : bool :=
  fge (fadd a M_EPSILON) b && fle (fsub a M_EPSILON) b.
Definition Normalized (v : Vector3) : Vector3 :=
  let lenSquared := DotProduct v v in
  if negb (Equals lenSquared one) && fgt lenSquared zero
  then v3scale v (fdiv one (fsqrt lenSquared))
  else v.

(** Modelled from the spec: [BoundingBox] ("accumulates a bounding box
    over positions") starts undefined, minimum at +infinity and maximum at
    -infinity, and [Merge] pulls each bound over the point. *)
Record BoundingBox := mkBoundingBox { min_ : Vector3; max_ : Vector3 }.
Definition BoundingBox_undefined : BoundingBox :=
  let pinf := S754_infinity false in
  let ninf := S754_infinity true in
  mkBoundingBox (mkVector3 pinf pinf pinf) (mkVector3 ninf ninf ninf).
Definition Merge (b : BoundingBox) (p : Vector3) : BoundingBox :=
  let lo := min_ b in
  let hi := max_ b in
  mkBoundingBox
    (mkVector3 (if flt (x_ p) (x_ lo) then x_ p else x_ lo)
               (if flt (y_ p) (y_ lo) then y_ p else y_ lo)
               (if flt (z_ p) (z_ lo) then z_ p else z_ lo))
    (mkVector3 (if fgt (x_ p) (x_ hi) then x_ p else x_ hi)
               (if fgt (y_ p) (y_ hi) then y_ p else y_ hi)
               (if fgt (z_ p) (z_ hi) then z_ p else z_ hi)).

(* ================================================================== *)
(** ** Constants of Terrain.cpp *)

Definition DEFAULT_SPACING : Vector3 := mkVector3 one (lit 1 (-2)) one.
Definition MIN_LOD_LEVELS : Z := 1.
Definition MAX_LOD_LEVELS : Z := 4.
Definition DEFAULT_PATCH_SIZE : Z := 32.
Definition MIN_PATCH_SIZE : Z := 4.
Definition MAX_PATCH_SIZE : Z := 128.
Definition STITCH_NORTH : Z := 1.
Definition STITCH_SOUTH : Z := 2.
Definition STITCH_WEST : Z := 4.
Definition STITCH_EAST : Z := 8.
Definition M_MAX_UNSIGNED : Z := 2 ^ 32 - 1.

(** The values a loop [for (int v = a; v < b; v += step)] runs through. *)
Definition for_range (a b step : Z) : list Z :=
  map (fun k => a + step * Z.of_nat k)
      (seq 0 (Z.to_nat ((b - a + step - 1) / step))).

(** The values a loop [for (int v = a; v <= b; ++v)] runs through. *)
Definition for_incl (a b : Z) : list Z := for_range a (b + 1) 1.

(** [GrowUpdateRegion]. *)
Definition GrowUpdateRegion (updateRegion : IntRect) (x y : Z) : IntRect :=
  if left_ updateRegion <? 0 then mkIntRect x y x y
  else
    let l := if x <? left_ updateRegion then x else left_ updateRegion in
    let r := if x >? right_ updateRegion then x else right_ updateRegion in
    let t := if y <? top_ updateRegion then y else top_ updateRegion in
    let b := if y >? bottom_ updateRegion then y else bottom_ updateRegion in
    mkIntRect l t r b.

(* ================================================================== *)
(** ** The shared index data *)

Section IndexData.

Variable patchSize_ : Z.
Variable numLodLevels_ : Z.

Let row : Z := u32 (patchSize_ + 1).

(** Three consecutive [indices.push_back((unsigned short) ...)]. *)
Definition tri (a b c : Z) : list Z := [u16 a; u16 b; u16 c].

Definition stitched (j flag : Z) : bool := negb (Z.land j flag =? 0).

Definition mainGrid (j skip : Z) : list Z :=
  let zStart := if stitched j STITCH_SOUTH then 0 + skip else 0 in
  let xStart := if stitched j STITCH_WEST then 0 + skip else 0 in
  let zEnd := if stitched j STITCH_NORTH then patchSize_ - skip else patchSize_ in
  let xEnd := if stitched j STITCH_EAST then patchSize_ - skip else patchSize_ in
  flat_map (fun z =>
    flat_map (fun x =>
      tri ((z + skip) * row + x) (z * row + x + skip) (z * row + x) ++
      tri ((z + skip) * row + x) ((z + skip) * row + x + skip) (z * row + x + skip))
      (for_range xStart xEnd skip))
    (for_range zStart zEnd skip).

Definition northEdge (j skip : Z) : list Z :=
  if stitched j STITCH_NORTH then
    let z := patchSize_ - skip in
    flat_map (fun x =>
      (if (x >? 0) || negb (stitched j STITCH_WEST)
       then tri ((z + skip) * row + x) (z * row + x + skip) (z * row + x)
       else []) ++
      tri ((z + skip) * row + x) ((z + skip) * row + x + 2 * skip) (z * row + x + skip) ++
      (if (x <? patchSize_ - skip * 2) || negb (stitched j STITCH_EAST)
       then tri ((z + skip) * row + x + 2 * skip) (z * row + x + 2 * skip) (z * row + x + skip)
       else []))
      (for_range 0 patchSize_ (skip * 2))
  else [].

Definition southEdge (j skip : Z) : list Z :=
  if stitched j STITCH_SOUTH then
    let z := 0 in
    flat_map (fun x =>
      (if (x >? 0) || negb (stitched j STITCH_WEST)
       then tri ((z + skip) * row + x) ((z + skip) * row + x + skip) (z * row + x)
       else []) ++
      tri (z * row + x) ((z + skip) * row + x + skip) (z * row + x + 2 * skip) ++
      (if (x <? patchSize_ - skip * 2) || negb (stitched j STITCH_EAST)
       then tri ((z + skip) * row + x + skip) ((z + skip) * row + x + 2 * skip) (z * row + x + 2 * skip)
       else []))
      (for_range 0 patchSize_ (skip * 2))
  else [].

Definition westEdge (j skip : Z) : list Z :=
  if stitched j STITCH_WEST then
    let x := 0 in
    flat_map (fun z =>
      (if (z >? 0) || negb (stitched j STITCH_SOUTH)
       then tri (z * row + x) ((z + skip) * row + x + skip) (z * row + x + skip)
       else []) ++
      tri ((z + 2 * skip) * row + x) ((z + skip) * row + x + skip) (z * row + x) ++
      (if (z <? patchSize_ - skip * 2) || negb (stitched j STITCH_NORTH)
       then tri ((z + 2 * skip) * row + x) ((z + 2 * skip) * row + x + skip) ((z + skip) * row + x + skip)
       else []))
      (for_range 0 patchSize_ (skip * 2))
  else [].

Definition eastEdge (j skip : Z) : list Z :=
  if stitched j STITCH_EAST then
    let x := patchSize_ - skip in
    flat_map (fun z =>
      (if (z >? 0) || negb (stitched j STITCH_SOUTH)
       then tri (z * row + x) ((z + skip) * row + x) (z * row + x + skip)
       else []) ++
      tri ((z + skip) * row + x) ((z + 2 * skip) * row + x + skip) (z * row + x + skip) ++
      (if (z <? patchSize_ - skip * 2) || negb (stitched j STITCH_NORTH)
       then tri ((z + skip) * row + x) ((z + 2 * skip) * row + x) ((z + 2 * skip) * row + x + skip)
       else []))
      (for_range 0 patchSize_ (skip * 2))
  else [].

(** Everything one pass of the inner loop (level [i], combination [j])
    pushes. *)
Definition combinationIndices (i j : Z) : list Z :=
  let skip := shl1 i in
  mainGrid j skip ++ northEdge j skip ++ southEdge j skip ++
  westEdge j skip ++ eastEdge j skip.

(** The state the two loops of [CreateIndexData] carry. *)
Record IndexData := mkIndexData {
  indices : list Z;
  drawRanges : list (Z * Z)
}.

Definition combinations (i : Z) : Z :=
  if i <? u32 (numLodLevels_ - 1) then 16 else 1.

Definition pushCombination (i : Z) (st : IndexData) (j : Z) : IndexData :=
  let indexStart := Z.of_nat (length (indices st)) in
  let indices' := indices st ++ combinationIndices i j in
  mkIndexData indices'
    (drawRanges st ++ [(indexStart, u32 (Z.of_nat (length indices') - indexStart))]).

Definition pushLevel (st : IndexData) (i : Z) : IndexData :=
  fold_left (pushCombination i) (for_range 0 (combinations i) 1) st.

Definition CreateIndexData : IndexData :=
  fold_left pushLevel (for_range 0 numLodLevels_ 1) (mkIndexData [] []).

End IndexData.

(* ================================================================== *)
(** ** Objects the terrain points to *)

(** The height image: [GetWidth], [GetHeight], [GetComponents],
    [IsCompressed] and the bytes behind [GetData]. *)
Record Image := mkImage {
  width_ : Z;
  height_ : Z;
  components_ : Z;
  compressed_ : bool;
  data_ : list Z
}.

(** [src[k]]: one byte of the image data. *)
Definition byteAt (img : Image) (k : Z) : Z := nth (Z.to_nat k) (data_ img) 0.

(** A patch is reached through a pointer; the pointer names the terrain's
    scene node and the child node [Patch_x_z] that carries the patch. *)
Record PatchRef := mkPatchRef { ref_terrain : Z; ref_x : Z; ref_z : Z }.

Definition PatchRef_eqb (a b : PatchRef) : bool :=
  (ref_terrain a =? ref_terrain b) && (ref_x a =? ref_x b) && (ref_z a =? ref_z b).

Record VertexBuffer := mkVertexBuffer {
  vertexCount : Z;
  elementMask : Z;
  vertexData : list f32
}.

(** The part of [Geometry] the terrain sets: draw range and raw
    (CPU-side) vertex positions. *)
Record Geometry := mkGeometry {
  indexStart : Z;
  indexCount : Z;
  rawVertexData : list f32
}.

Module TerrainPatch.

(** Modelled from the spec: the patch class is declared outside the
    excerpt; these are the members the spec lists for a patch (grid
    coordinate, vertex block, bounding box, one error per LOD level,
    current LOD level, four weak neighbour references) together with the
    three geometries [CreatePatchGeometry] fills.  The drawable
    parameters the terrain copies to its patches (material, masks,
    distances, lightmap settings) are outside the spec's scope and are
    not carried. *)
Record t := mk {
  coordinates_ : IntVector2;
  vertexBuffer_ : VertexBuffer;
  geometry_ : Geometry;
  maxLodGeometry_ : Geometry;
  occlusionGeometry_ : Geometry;
  boundingBox_ : BoundingBox;
  lodErrors_ : list f32;
  lodLevel_ : Z;
  north_ : option PatchRef;
  south_ : option PatchRef;
  west_ : option PatchRef;
  east_ : option PatchRef
}.

(** A patch as [CreateComponent<TerrainPatch>] followed by
    [SetCoordinates] leaves it. *)
Definition create (coords : IntVector2) : t :=
  let g := mkGeometry 0 0 [] in
  mk coords (mkVertexBuffer 0 0 []) g g g BoundingBox_undefined [] 0
     None None None None.

Definition SetNeighbors (p : t) (n s w e : option PatchRef) : t :=
  mk (coordinates_ p) (vertexBuffer_ p) (geometry_ p) (maxLodGeometry_ p)
     (occlusionGeometry_ p) (boundingBox_ p) (lodErrors_ p) (lodLevel_ p)
     n s w e.

Definition SetLodErrors (p : t) (errs : list f32) : t :=
  mk (coordinates_ p) (vertexBuffer_ p) (geometry_ p) (maxLodGeometry_ p)
     (occlusionGeometry_ p) (boundingBox_ p) errs (lodLevel_ p)
     (north_ p) (south_ p) (west_ p) (east_ p).

Definition SetDrawRange (p : t) (range : Z * Z) : t :=
  mk (coordinates_ p) (vertexBuffer_ p)
     (mkGeometry (fst range) (snd range) (rawVertexData (geometry_ p)))
     (maxLodGeometry_ p)
     (occlusionGeometry_ p) (boundingBox_ p) (lodErrors_ p) (lodLevel_ p)
     (north_ p) (south_ p) (west_ p) (east_ p).

End TerrainPatch.

(** A child node of the terrain node: its local position and its patch
    component.  The node name [Patch_x_z] is kept as the pair [(x, z)]. *)
Record PatchNode := mkPatchNode {
  position_ : Vector3;
  patch_ : TerrainPatch.t
}.

(** The scene node the terrain is attached to.  The transform matrices
    live outside the excerpt; the node carries what the terrain asks of
    them: [GetWorldTransform() * v], [GetWorldTransform().Inverse() * v],
    [GetWorldRotation() * v], the world scale and the world position. *)
Record Node := mkNode {
  id_ : Z;
  toWorld : Vector3 -> Vector3;
  toLocal : Vector3 -> Vector3;
  GetWorldRotation : Vector3 -> Vector3;
  GetWorldScale : Vector3;
  GetWorldPosition : Vector3;
  children_ : list (IntVector2 * PatchNode)
}.

Definition GetChild (n : Node) (name : IntVector2) : option PatchNode :=
  match find (fun c => IntVector2_eqb (fst c) name) (children_ n) with
  | Some c => Some (snd c)
  | None => None
  end.

Definition withChildren (n : Node) (cs : list (IntVector2 * PatchNode)) : Node :=
  mkNode (id_ n) (toWorld n) (toLocal n) (GetWorldRotation n)
         (GetWorldScale n) (GetWorldPosition n) cs.

(** Replace the child of that name, or append it when there is none. *)
Fixpoint putChild (cs : list (IntVector2 * PatchNode)) (name : IntVector2)
         (c : PatchNode) : list (IntVector2 * PatchNode) :=
  match cs with
  | [] => [(name, c)]
  | (k, old) :: rest =>
      if IntVector2_eqb k name then (k, c) :: rest
      else (k, old) :: putChild rest name c
  end.

(** Events a call leaves behind, in order. *)
Inductive Event :=
| CreateGeometry_called
| LogError_compressed_heightmap
| Unsubscribe_ReloadFinished
| Subscribe_ReloadFinished
| TerrainCreated_sent (node : Z).

(* ================================================================== *)
(** ** The terrain component *)

Record Terrain := mkTerrain {
  node_ : option Node;
  indexBuffer_ : list Z;
  heightMap_ : option Image;
  heightData_ : option (list f32);
  sourceHeightData_ : option (list f32);
  spacing_ : Vector3;
  lastSpacing_ : Vector3;
  patchWorldOrigin_ : Vector2;
  patchWorldSize_ : Vector2;
  numVertices_ : IntVector2;
  lastNumVertices_ : IntVector2;
  numPatches_ : IntVector2;
  patchSize_ : Z;
  lastPatchSize_ : Z;
  numLodLevels_ : Z;
  maxLodLevels_ : Z;
  occlusionLodLevel_ : Z;
  smoothing_ : bool;
  bakeLightmap_ : bool;
  patches_ : list PatchRef;
  drawRanges_ : list (Z * Z);
  north_ : option Z;
  south_ : option Z;
  west_ : option Z;
  east_ : option Z;
  recreateTerrain_ : bool
}.

(** The constructor's member initialisers. *)
Definition Terrain_new : Terrain :=
  mkTerrain None [] None None None DEFAULT_SPACING Vector3_ZERO
            Vector2_ZERO Vector2_ZERO IntVector2_ZERO IntVector2_ZERO
            IntVector2_ZERO DEFAULT_PATCH_SIZE 0 1 MAX_LOD_LEVELS
            M_MAX_UNSIGNED false false [] [] None None None None false.

(** The other terrains of the scene, by the id of their node. *)
Definition Scene := Z -> option Terrain.

(** The terrain behind a neighbour pointer; a pointer to this very
    terrain sees it as it currently is. *)
Definition terrainAt (sc : Scene) (t : Terrain) (id : Z) : option Terrain :=
  match node_ t with
  | Some n => if id_ n =? id then Some t else sc id
  | None => sc id
  end.

(** Dereferencing a patch pointer: the patch component of that child, if
    the terrain and the child still exist. *)
Definition derefPatch (sc : Scene) (t : Terrain) (r : PatchRef)
  : option TerrainPatch.t :=
  match terrainAt sc t (ref_terrain r) with
  | Some o =>
      match node_ o with
      | Some n =>
          match GetChild n (mkIntVector2 (ref_x r) (ref_z r)) with
          | Some c => Some (patch_ c)
          | None => None
          end
      | None => None
      end
  | None => None
  end.

(* ================================================================== *)
(** ** Height queries *)

(** The row-major index [z * numVertices_.x_ + x] after both clamps. *)
Definition heightIndex (t : Terrain) (x z : Z) : Z :=
  let x := Clamp x 0 (ix_ (numVertices_ t) - 1) in
  let z := Clamp z 0 (iy_ (numVertices_ t) - 1) in
  z * ix_ (numVertices_ t) + x.

(** [array[k]]. *)
Definition readHeight (d : list f32) (k : Z) : f32 := nth (Z.to_nat k) d zero.

Definition GetRawHeight (t : Terrain) (x z : Z) : f32 :=
  match heightData_ t with
  | None => zero
  | Some d => readHeight d (heightIndex t x z)
  end.

Definition GetSourceHeight (t : Terrain) (x z : Z) : f32 :=
  match sourceHeightData_ t with
  | None => zero
  | Some d => readHeight d (heightIndex t x z)
  end.

(** The two triangles of a cell: [h1 * (1 - xFrac - zFrac) + h2 * xFrac +
    h3 * zFrac]. *)
Definition interpolate (h1 h2 h3 xFrac zFrac : f32) : f32 :=
  fadd (fadd (fmul h1 (fsub (fsub one xFrac) zFrac)) (fmul h2 xFrac))
       (fmul h3 zFrac).

Definition GetLodHeight (t : Terrain) (x z lodLevel : Z) : f32 :=
  let offset := shl1 lodLevel in
  let xFrac := fdiv (of_int (u32 x mod offset)) (of_int offset) in
  let zFrac := fdiv (of_int (u32 z mod offset)) (of_int offset) in
  if fge (fadd xFrac zFrac) one then
    let h1 := GetRawHeight t (s32 (x + offset)) (s32 (z + offset)) in
    let h2 := GetRawHeight t x (s32 (z + offset)) in
    let h3 := GetRawHeight t (s32 (x + offset)) z in
    interpolate h1 h2 h3 (fsub one xFrac) (fsub one zFrac)
  else
    let h1 := GetRawHeight t x z in
    let h2 := GetRawHeight t (s32 (x + offset)) z in
    let h3 := GetRawHeight t x (s32 (z + offset)) in
    interpolate h1 h2 h3 xFrac zFrac.

Definition GetRawNormal (t : Terrain) (x z : Z) : Vector3 :=
  let baseHeight := GetRawHeight t x z in
  let nSlope := fsub (GetRawHeight t x (z - 1)) baseHeight in
  let neSlope := fsub (GetRawHeight t (x + 1) (z - 1)) baseHeight in
  let eSlope := fsub (GetRawHeight t (x + 1) z) baseHeight in
  let seSlope := fsub (GetRawHeight t (x + 1) (z + 1)) baseHeight in
  let sSlope := fsub (GetRawHeight t x (z + 1)) baseHeight in
  let swSlope := fsub (GetRawHeight t (x - 1) (z + 1)) baseHeight in
  let wSlope := fsub (GetRawHeight t (x - 1) z) baseHeight in
  let nwSlope := fsub (GetRawHeight t (x - 1) (z - 1)) baseHeight in
  let up := fmul (lit 1 (-1)) (fadd (x_ (spacing_ t)) (z_ (spacing_ t))) in
  Normalized
    (v3add (v3add (v3add (v3add (v3add (v3add (v3add
       (mkVector3 zero up nSlope)
       (mkVector3 (fneg neSlope) up neSlope))
       (mkVector3 (fneg eSlope) up zero))
       (mkVector3 (fneg seSlope) up (fneg seSlope)))
       (mkVector3 zero up (fneg sSlope)))
       (mkVector3 swSlope up (fneg swSlope)))
       (mkVector3 wSlope up zero))
       (mkVector3 nwSlope up nwSlope)).

(** The fractional heightmap coordinates of a world position, as the
    first lines of [GetHeight] and [GetNormal] compute them. *)
Definition localCoords (t : Terrain) (n : Node) (worldPosition : Vector3)
  : f32 * f32 :=
  let position := toLocal n worldPosition in
  (fdiv (fsub (x_ position) (x2_ (patchWorldOrigin_ t))) (x_ (spacing_ t)),
   fdiv (fsub (z_ position) (y2_ (patchWorldOrigin_ t))) (z_ (spacing_ t))).

(** The three sample coordinates a query reads, in the order h1, h2, h3,
    and the fractions it weighs them with. *)
Definition cornerSamples (xPos zPos : f32)
  : ((Z * Z) * (Z * Z) * (Z * Z)) * (f32 * f32) :=
  let xFrac := Fract xPos in
  let zFrac := Fract zPos in
  let x0 := s32 (to_unsigned xPos) in
  let z0 := s32 (to_unsigned zPos) in
  let x1 := s32 (u32 (to_unsigned xPos + 1)) in
  let z1 := s32 (u32 (to_unsigned zPos + 1)) in
  if fge (fadd xFrac zFrac) one
  then (((x1, z1), (x0, z1), (x1, z0)), (fsub one xFrac, fsub one zFrac))
  else (((x0, z0), (x1, z0), (x0, z1)), (xFrac, zFrac)).

Definition GetHeight (t : Terrain) (worldPosition : Vector3) : f32 :=
  match node_ t with
  | Some n =>
      let '(xPos, zPos) := localCoords t n worldPosition in
      let '((c1, c2, c3), (xFrac, zFrac)) := cornerSamples xPos zPos in
      let h1 := GetRawHeight t (fst c1) (snd c1) in
      let h2 := GetRawHeight t (fst c2) (snd c2) in
      let h3 := GetRawHeight t (fst c3) (snd c3) in
      let h := interpolate h1 h2 h3 xFrac zFrac in
      fadd (fmul (y_ (GetWorldScale n)) h) (y_ (GetWorldPosition n))
  | None => zero
  end.

Definition GetNormal (t : Terrain) (worldPosition : Vector3) : Vector3 :=
  match node_ t with
  | Some n =>
      let '(xPos, zPos) := localCoords t n worldPosition in
      let '((c1, c2, c3), (xFrac, zFrac)) := cornerSamples xPos zPos in
      let n1 := GetRawNormal t (fst c1) (snd c1) in
      let n2 := GetRawNormal t (fst c2) (snd c2) in
      let n3 := GetRawNormal t (fst c3) (snd c3) in
      let nrm :=
        Normalized
          (v3add (v3add (v3scale n1 (fsub (fsub one xFrac) zFrac))
                        (v3scale n2 xFrac))
                 (v3scale n3 zFrac)) in
      GetWorldRotation n nrm
  | None => Vector3_UP
  end.



Definition HeightMapToUV (t : Terrain) (pixelPosition : IntVector2) : Vector2 :=
  mkVector2
    (fdiv (of_int (ix_ pixelPosition)) (of_int (ix_ (numVertices_ t) - 1)))
    (fdiv (of_int (iy_ pixelPosition)) (of_int (iy_ (numVertices_ t) - 1))).

(* ================================================================== *)
(** ** Patch lookup and neighbours *)

Definition patchAlive (t : Terrain) (r : PatchRef) : bool :=
  match node_ t with
  | Some n =>
      match GetChild n (mkIntVector2 (ref_x r) (ref_z r)) with
      | Some _ => true
      | None => false
      end
  | None => false
  end.

(** [GetPatch(unsigned index)]: the weak pointer [patches_[index]], null
    once the patch is gone. *)
Definition GetPatchAt (t : Terrain) (index : Z) : option PatchRef :=
  if index <? Z.of_nat (length (patches_ t)) then
    match nth_error (patches_ t) (Z.to_nat index) with
    | Some r => if patchAlive t r then Some r else None
    | None => None
    end
  else None.

Definition GetPatch (t : Terrain) (x z : Z) : option PatchRef :=
  if (x <? 0) || (x >=? ix_ (numPatches_ t)) || (z <? 0) || (z >=? iy_ (numPatches_ t))
  then None
  else GetPatchAt t (u32 (z * ix_ (numPatches_ t) + x)).

(** The terrain a neighbour pointer leads to, if it is set and alive. *)
Definition neighbour (sc : Scene) (t : Terrain) (link : option Z)
  : option Terrain :=
  match link with
  | Some id => terrainAt sc t id
  | None => None
  end.

Definition GetNeighborPatch (sc : Scene) (t : Terrain) (x z : Z)
  : option PatchRef :=
  match neighbour sc t (north_ t), neighbour sc t (south_ t),
        neighbour sc t (west_ t), neighbour sc t (east_ t) with
  | n, s, w, e =>
      match (z >=? iy_ (numPatches_ t)), n with
      | true, Some north => GetPatch north x (z - iy_ (numPatches_ t))
      | _, _ =>
      match (z <? 0), s with
      | true, Some south => GetPatch south x (z + iy_ (numPatches_ south))
      | _, _ =>
      match (x <? 0), w with
      | true, Some west => GetPatch west (x + ix_ (numPatches_ west)) z
      | _, _ =>
      match (x >=? ix_ (numPatches_ t)), e with
      | true, Some east => GetPatch east (x - ix_ (numPatches_ t)) z
      | _, _ => GetPatch t x z
      end end end end
  end.

Definition SetPatchNeighbors (sc : Scene) (t : Terrain) (patch : TerrainPatch.t)
  : TerrainPatch.t :=
  let coords := TerrainPatch.coordinates_ patch in
  TerrainPatch.SetNeighbors patch
    (GetNeighborPatch sc t (ix_ coords) (iy_ coords + 1))
    (GetNeighborPatch sc t (ix_ coords) (iy_ coords - 1))
    (GetNeighborPatch sc t (ix_ coords - 1) (iy_ coords))
    (GetNeighborPatch sc t (ix_ coords + 1) (iy_ coords)).

(* ================================================================== *)
(** ** LOD errors *)

(** The samples of a patch extent, in loop order (z outer, x inner). *)
Definition extentSamples (xStart xEnd zStart zEnd : Z) : list (Z * Z) :=
  flat_map (fun z => map (fun x => (x, z)) (for_incl xStart xEnd))
           (for_incl zStart zEnd).

(** One pass of the inner loops of [CalculateLodErrors]. *)
Definition lodErrorStep (t : Terrain) (i divisor : Z) (maxError : f32)
           (xz : Z * Z) : f32 :=
  let '(x, z) := xz in
  if negb (cmod x divisor =? 0) || negb (cmod z divisor =? 0) then
    let error := fAbs (fsub (GetLodHeight t x z i) (GetRawHeight t x z)) in
    fMax error maxError
  else maxError.

Definition lodError (t : Terrain) (coords : IntVector2) (i : Z) : f32 :=
  let xStart := ix_ coords * patchSize_ t in
  let zStart := iy_ coords * patchSize_ t in
  let xEnd := xStart + patchSize_ t in
  let zEnd := zStart + patchSize_ t in
  let maxError := zero in
  let divisor := s32 (shl1 i) in
  if i >? 0 then
    let maxError :=
      fold_left (lodErrorStep t i divisor)
                (extentSamples xStart xEnd zStart zEnd) maxError in
    fMax maxError
         (fmul (fmul (lit 1 (-2)) (fadd (x_ (spacing_ t)) (z_ (spacing_ t))))
               (of_int (shl1 i)))
  else maxError.

(** [CalculateLodErrors]: the vector is cleared and gets one entry per
    level. *)
Definition CalculateLodErrors (t : Terrain) (patch : TerrainPatch.t)
  : TerrainPatch.t :=
  TerrainPatch.SetLodErrors patch
    (map (lodError t (TerrainPatch.coordinates_ patch))
         (for_range 0 (numLodLevels_ t) 1)).

(* ================================================================== *)
(** ** Patch vertex data *)

(** Element mask bits; the numeric values are the engine's, only their
    being distinct bits matters here. *)
Definition MASK_POSITION : Z := 1.
Definition MASK_NORMAL : Z := 2.
Definition MASK_TEXCOORD1 : Z := 8.
Definition MASK_TEXCOORD2 : Z := 16.
Definition MASK_TANGENT : Z := 128.

Definition vertexMask (t : Terrain) : Z :=
  let m := Z.lor (Z.lor (Z.lor MASK_POSITION MASK_NORMAL) MASK_TEXCOORD1) MASK_TANGENT in
  if bakeLightmap_ t then Z.lor m MASK_TEXCOORD2 else m.

Definition occlusionLevelOf (t : Terrain) : Z :=
  if occlusionLodLevel_ t >? u32 (numLodLevels_ t - 1)
  then u32 (numLodLevels_ t - 1)
  else occlusionLodLevel_ t.

(** [Max(int - unsigned, 0)] and [Min(int + unsigned, int)]: the compare
    is carried out on [unsigned] and the result stored in an [int]. *)
Definition maxU (a b : Z) : Z := s32 (if u32 a >? u32 b then u32 a else u32 b).
Definition minU (a b : Z) : Z := s32 (if u32 a <? u32 b then u32 a else u32 b).

Definition vertexPosition (t : Terrain) (coords : IntVector2) (x z : Z)
  : Vector3 :=
  let xPos := ix_ coords * patchSize_ t + x in
  let zPos := iy_ coords * patchSize_ t + z in
  mkVector3 (fmul (of_int x) (x_ (spacing_ t)))
            (GetRawHeight t xPos zPos)
            (fmul (of_int z) (z_ (spacing_ t))).

(** The height of the occlusion vertex: the minimum over the
    neighbourhood for vertices on the occlusion LOD grid. *)
Definition occlusionHeight (t : Terrain) (coords : IntVector2) (x z : Z)
  : f32 :=
  let occlusionLevel := occlusionLevelOf t in
  let lodExpand := u32 (shl1 occlusionLevel - 1) in
  let halfLodExpand := shl1 occlusionLevel / 2 in
  let xPos := ix_ coords * patchSize_ t + x in
  let zPos := iy_ coords * patchSize_ t + z in
  let minHeight := GetRawHeight t xPos zPos in
  if (halfLodExpand >? 0) && (Z.land x lodExpand =? 0) && (Z.land z lodExpand =? 0)
  then
    let minX := maxU (xPos - halfLodExpand) 0 in
    let maxX := minU (xPos + halfLodExpand) (ix_ (numVertices_ t) - 1) in
    let minZ := maxU (zPos - halfLodExpand) 0 in
    let maxZ := minU (zPos + halfLodExpand) (iy_ (numVertices_ t) - 1) in
    fold_left (fun m xz => fMin m (GetRawHeight t (fst xz) (snd xz)))
              (extentSamples minX maxX minZ maxZ) minHeight
  else minHeight.

(** The floats one vertex adds to the vertex buffer. *)
Definition vertexFloats (t : Terrain) (coords : IntVector2) (xz : Z * Z)
  : list f32 :=
  let '(x, z) := xz in
  let xPos := ix_ coords * patchSize_ t + x in
  let zPos := iy_ coords * patchSize_ t + z in
  let position := vertexPosition t coords x z in
  let normal := GetRawNormal t xPos zPos in
  let texCoord :=
    HeightMapToUV t (mkIntVector2 xPos (iy_ (numVertices_ t) - 1 - zPos)) in
  let xyz :=
    Normalized (v3sub Vector3_RIGHT
                      (v3scale normal (DotProduct normal Vector3_RIGHT))) in
  [x_ position; y_ position; z_ position;
   x_ normal; y_ normal; z_ normal;
   x2_ texCoord; y2_ texCoord] ++
  (if bakeLightmap_ t then [x2_ texCoord; y2_ texCoord] else []) ++
  [x_ xyz; y_ xyz; z_ xyz; one].

Definition positionFloats (t : Terrain) (coords : IntVector2) (xz : Z * Z)
  : list f32 :=
  let position := vertexPosition t coords (fst xz) (snd xz) in
  [x_ position; y_ position; z_ position].

Definition occlusionFloats (t : Terrain) (coords : IntVector2) (xz : Z * Z)
  : list f32 :=
  let position := vertexPosition t coords (fst xz) (snd xz) in
  [x_ position; occlusionHeight t coords (fst xz) (snd xz); z_ position].

(** [CreatePatchGeometry]; the vertex buffer maps successfully. *)
Definition CreatePatchGeometry (t : Terrain) (patch : TerrainPatch.t)
  : TerrainPatch.t :=
  let row := u32 (patchSize_ t + 1) in
  let coords := TerrainPatch.coordinates_ patch in
  let grid := extentSamples 0 (patchSize_ t) 0 (patchSize_ t) in
  let vertexBuffer :=
    mkVertexBuffer (u32 (row * row)) (vertexMask t)
                   (flat_map (vertexFloats t coords) grid) in
  let cpuVertexData := flat_map (positionFloats t coords) grid in
  let occlusionCpuVertexData := flat_map (occlusionFloats t coords) grid in
  let box :=
    fold_left (fun b xz => Merge b (vertexPosition t coords (fst xz) (snd xz)))
              grid BoundingBox_undefined in
  let occlusionDrawRange := u32 (Z.shiftl (occlusionLevelOf t) 4) in
  let range0 := nth 0 (drawRanges_ t) (0, 0) in
  let rangeOcc := nth (Z.to_nat occlusionDrawRange) (drawRanges_ t) (0, 0) in
  let has := negb (Z.of_nat (length (drawRanges_ t)) =? 0) in
  let setGeometry (g : Geometry) (range : Z * Z) (raw : list f32) :=
    if has then mkGeometry (fst range) (snd range) raw else g in
  TerrainPatch.mk coords vertexBuffer
    (setGeometry (TerrainPatch.geometry_ patch) range0 cpuVertexData)
    (setGeometry (TerrainPatch.maxLodGeometry_ patch) range0 cpuVertexData)
    (setGeometry (TerrainPatch.occlusionGeometry_ patch) rangeOcc occlusionCpuVertexData)
    box
    (TerrainPatch.lodErrors_ patch)
    0
    (TerrainPatch.north_ patch) (TerrainPatch.south_ patch)
    (TerrainPatch.west_ patch) (TerrainPatch.east_ patch).

(* ================================================================== *)
(** ** Regeneration *)

(** The loop that determines the number of LOD levels.  [lodSize] is an
    [unsigned] that is halved on every pass, so 32 passes exhaust it. *)
Fixpoint lodLevelsLoop (fuel : nat) (lodSize numLodLevels maxLodLevels : Z) : Z :=
  match fuel with
  | O => numLodLevels
  | S fuel' =>
      if (lodSize >? MIN_PATCH_SIZE) && (numLodLevels <? maxLodLevels)
      then lodLevelsLoop fuel' (Z.shiftr lodSize 1) (u32 (numLodLevels + 1))
                         maxLodLevels
      else numLodLevels
  end.

Definition determineLodLevels (patchSize maxLodLevels : Z) : Z :=
  lodLevelsLoop 32 (u32 patchSize) 1 maxLodLevels.

(** [new float[n]]: fresh storage, taken as zero-filled. *)
Definition newFloats (n : Z) : list f32 := repeat zero (Z.to_nat n).

(** All sample coordinates in the order the copy loops visit them. *)
Definition sampleCoords (numVertices : IntVector2) : list (Z * Z) :=
  flat_map (fun z => map (fun x => (x, z)) (for_range 0 (ix_ numVertices) 1))
           (for_range 0 (iy_ numVertices) 1).

(** [newHeight] of the copy loops, for one or for several components. *)
Definition newHeight (img : Image) (numVertices : IntVector2)
           (spacing : Vector3) (xz : Z * Z) : f32 :=
  let '(x, z) := xz in
  let imgComps := u32 (components_ img) in
  let imgRow := u32 (width_ img * imgComps) in
  if imgComps =? 1 then
    fmul (of_int (byteAt img (u32 (imgRow * (iy_ numVertices - 1 - z) + x))))
         (y_ spacing)
  else
    fmul (fadd (of_int (byteAt img (u32 (imgRow * (iy_ numVertices - 1 - z) + imgComps * x))))
               (fdiv (of_int (byteAt img (u32 (imgRow * (iy_ numVertices - 1 - z) + imgComps * x + 1))))
                     (of_int 256)))
         (y_ spacing).

(** What one pass of the copy loop leaves in [*dest]. *)
Definition storeHeight (updateAll : bool) (old new : f32) : f32 :=
  if updateAll then new else if fne old new then new else old.

(** What one pass of the copy loop does to the update region. *)
Definition growIfChanged (updateAll : bool) (dest : list f32) (numVertices : IntVector2)
           (height : Z * Z -> f32) (updateRegion : IntRect) (xz : Z * Z) : IntRect :=
  if updateAll then updateRegion
  else if fne (readHeight dest (snd xz * ix_ numVertices + fst xz)) (height xz)
       then GrowUpdateRegion updateRegion (fst xz) (snd xz)
       else updateRegion.

(** The copy loop: the new contents of [dest] and the update region. *)
Definition copyHeightData (updateAll : bool) (dest : list f32)
           (numVertices : IntVector2) (height : Z * Z -> f32)
  : list f32 * IntRect :=
  let coords := sampleCoords numVertices in
  (map (fun xz => storeHeight updateAll
                    (readHeight dest (snd xz * ix_ numVertices + fst xz))
                    (height xz)) coords,
   fold_left (growIfChanged updateAll dest numVertices height) coords
             (mkIntRect (-1) (-1) (-1) (-1))).

(** [v[k] = x] on a vector. *)
Fixpoint setNth {A} (k : nat) (x : A) (l : list A) : list A :=
  match l, k with
  | [], _ => []
  | _ :: r, O => x :: r
  | a :: r, S k' => a :: setNth k' x r
  end.

(** The update region grown by the coarsest LOD step, one more to the
    right and bottom. *)
Definition expandRegion (numLodLevels : Z) (updateRegion : IntRect) : IntRect :=
  let lodExpand := s32 (shl1 (u32 (numLodLevels - 1))) in
  mkIntRect (left_ updateRegion - lodExpand)
            (top_ updateRegion - lodExpand)
            (right_ updateRegion + (lodExpand + 1))
            (bottom_ updateRegion + (lodExpand + 1)).

(** The patch index range [sX..eX] x [sY..eY] of the expanded region. *)
Definition dirtyRange (patchSize : Z) (numPatches : IntVector2) (r : IntRect)
  : IntRect :=
  mkIntRect (Max (cdiv (left_ r) patchSize) 0)
            (Max (cdiv (top_ r) patchSize) 0)
            (Min (cdiv (right_ r) patchSize) (ix_ numPatches - 1))
            (Min (cdiv (bottom_ r) patchSize) (iy_ numPatches - 1)).

Definition markDirty (numPatches : IntVector2) (range : IntRect)
           (dirtyPatches : list bool) : list bool :=
  fold_left
    (fun d y =>
       fold_left (fun d x => setNth (Z.to_nat (y * ix_ numPatches + x)) true d)
                 (for_incl (left_ range) (right_ range)) d)
    (for_incl (top_ range) (bottom_ range)) dirtyPatches.

(** The grid coordinates of the patches, row-major by (x, z). *)
Definition patchCoords (numPatches : IntVector2) : list (Z * Z) :=
  flat_map (fun z => map (fun x => (x, z)) (for_range 0 (ix_ numPatches) 1))
           (for_range 0 (iy_ numPatches) 1).

(** One pass of the patch creation loop on the children of the node. *)
Definition createPatchNode (origin size : Vector2)
           (cs : list (IntVector2 * PatchNode)) (xz : Z * Z)
  : list (IntVector2 * PatchNode) :=
  let '(x, z) := xz in
  let name := mkIntVector2 x z in
  let position :=
    mkVector3 (fadd (x2_ origin) (fmul (of_int x) (x2_ size))) zero
              (fadd (y2_ origin) (fmul (of_int z) (y2_ size))) in
  let patch :=
    match find (fun c => IntVector2_eqb (fst c) name) cs with
    | Some c => patch_ (snd c)
    | None => TerrainPatch.create name
    end in
  putChild cs name (mkPatchNode position patch).

(** The smoothed height of one sample. *)
Definition smoothedHeight (t : Terrain) (x z : Z) : f32 :=
  let two := of_int 2 in
  let four := of_int 4 in
  fdiv
    (fadd (fadd (fadd (fadd (fadd (fadd (fadd (fadd
       (GetSourceHeight t (x - 1) (z - 1))
       (fmul (GetSourceHeight t x (z - 1)) two))
       (GetSourceHeight t (x + 1) (z - 1)))
       (fmul (GetSourceHeight t (x - 1) z) two))
       (fmul (GetSourceHeight t x z) four))
       (fmul (GetSourceHeight t (x + 1) z) two))
       (GetSourceHeight t (x - 1) (z + 1)))
       (fmul (GetSourceHeight t x (z + 1)) two))
       (GetSourceHeight t (x + 1) (z + 1)))
    (of_int 16).

Definition withNode (t : Terrain) (n : option Node) : Terrain :=
  mkTerrain n (indexBuffer_ t) (heightMap_ t) (heightData_ t)
    (sourceHeightData_ t) (spacing_ t) (lastSpacing_ t) (patchWorldOrigin_ t)
    (patchWorldSize_ t) (numVertices_ t) (lastNumVertices_ t) (numPatches_ t)
    (patchSize_ t) (lastPatchSize_ t) (numLodLevels_ t) (maxLodLevels_ t)
    (occlusionLodLevel_ t) (smoothing_ t) (bakeLightmap_ t) (patches_ t)
    (drawRanges_ t) (north_ t) (south_ t) (west_ t) (east_ t)
    (recreateTerrain_ t).

Definition withHeightData (t : Terrain) (d : option (list f32)) : Terrain :=
  mkTerrain (node_ t) (indexBuffer_ t) (heightMap_ t) d
    (sourceHeightData_ t) (spacing_ t) (lastSpacing_ t) (patchWorldOrigin_ t)
    (patchWorldSize_ t) (numVertices_ t) (lastNumVertices_ t) (numPatches_ t)
    (patchSize_ t) (lastPatchSize_ t) (numLodLevels_ t) (maxLodLevels_ t)
    (occlusionLodLevel_ t) (smoothing_ t) (bakeLightmap_ t) (patches_ t)
    (drawRanges_ t) (north_ t) (south_ t) (west_ t) (east_ t)
    (recreateTerrain_ t).

Definition withRecreateTerrain (t : Terrain) (b : bool) : Terrain :=
  mkTerrain (node_ t) (indexBuffer_ t) (heightMap_ t) (heightData_ t)
    (sourceHeightData_ t) (spacing_ t) (lastSpacing_ t) (patchWorldOrigin_ t)
    (patchWorldSize_ t) (numVertices_ t) (lastNumVertices_ t) (numPatches_ t)
    (patchSize_ t) (lastPatchSize_ t) (numLodLevels_ t) (maxLodLevels_ t)
    (occlusionLodLevel_ t) (smoothing_ t) (bakeLightmap_ t) (patches_ t)
    (drawRanges_ t) (north_ t) (south_ t) (west_ t) (east_ t) b.

(** The patch component behind one of the terrain's own patch pointers. *)
Definition ownPatch (t : Terrain) (r : PatchRef) : option PatchNode :=
  match node_ t with
  | Some n => GetChild n (mkIntVector2 (ref_x r) (ref_z r))
  | None => None
  end.

Definition putOwnPatch (t : Terrain) (r : PatchRef) (c : PatchNode) : Terrain :=
  match node_ t with
  | Some n =>
      withNode t (Some (withChildren n
        (putChild (children_ n) (mkIntVector2 (ref_x r) (ref_z r)) c)))
  | None => t
  end.

(** The smoothing pass over the extent of one dirty patch. *)
Definition smoothPatch (t : Terrain) (d : list f32) (rd : PatchRef * bool)
  : list f32 :=
  let '(r, dirty) := rd in
  if dirty then
    match ownPatch t r with
    | Some c =>
        let coords := TerrainPatch.coordinates_ (patch_ c) in
        let startX := ix_ coords * patchSize_ t in
        let endX := startX + patchSize_ t in
        let startZ := iy_ coords * patchSize_ t in
        let endZ := startZ + patchSize_ t in
        fold_left
          (fun d xz =>
             setNth (Z.to_nat (snd xz * ix_ (numVertices_ t) + fst xz))
                    (smoothedHeight t (fst xz) (snd xz)) d)
          (extentSamples startX endX startZ endZ) d
    | None => d
    end
  else d.

(** One pass of the final loop over the patches. *)
Definition buildPatch (sc : Scene) (t : Terrain) (rd : PatchRef * bool)
  : Terrain :=
  let '(r, dirty) := rd in
  match ownPatch t r with
  | Some c =>
      let patch := patch_ c in
      let patch :=
        if dirty then CalculateLodErrors t (CreatePatchGeometry t patch)
        else patch in
      let patch := SetPatchNeighbors sc t patch in
      putOwnPatch t r (mkPatchNode (position_ c) patch)
  | None => t
  end.

(** What [CreateGeometry] settles before it touches the patches. *)
Record Plan := mkPlan {
  plan_numLodLevels : Z;
  plan_patchWorldSize : Vector2;
  plan_numPatches : IntVector2;
  plan_numVertices : IntVector2;
  plan_patchWorldOrigin : Vector2;
  plan_updateAll : bool;
  plan_heightData : option (list f32);
  plan_sourceHeightData : option (list f32)
}.

Definition planGeometry (t : Terrain) : Plan :=
  let numLodLevels := determineLodLevels (patchSize_ t) (maxLodLevels_ t) in
  let patchWorldSize :=
    mkVector2 (fmul (x_ (spacing_ t)) (of_int (patchSize_ t)))
              (fmul (z_ (spacing_ t)) (of_int (patchSize_ t))) in
  match heightMap_ t with
  | Some img =>
      let numPatches :=
        mkIntVector2 (cdiv (width_ img - 1) (patchSize_ t))
                     (cdiv (height_ img - 1) (patchSize_ t)) in
      let numVertices :=
        mkIntVector2 (ix_ numPatches * patchSize_ t + 1)
                     (iy_ numPatches * patchSize_ t + 1) in
      let mhalf := lit (-1) (-1) in
      let patchWorldOrigin :=
        mkVector2 (fmul (fmul mhalf (of_int (ix_ numPatches))) (x2_ patchWorldSize))
                  (fmul (fmul mhalf (of_int (iy_ numPatches))) (y2_ patchWorldSize)) in
      let updateAll :=
        IntVector2_ne numVertices (lastNumVertices_ t)
        || Vector3_ne (lastSpacing_ t) (spacing_ t)
        || negb (patchSize_ t =? lastPatchSize_ t) in
      let newDataSize := u32 (ix_ numVertices * iy_ numVertices) in
      let heightData :=
        match heightData_ t with
        | Some d => if updateAll then Some (newFloats newDataSize) else Some d
        | None => Some (newFloats newDataSize)
        end in
      let freshSource :=
        smoothing_ t &&
        (match sourceHeightData_ t with Some _ => false | None => true end
         || updateAll) in
      let sourceHeightData :=
        if freshSource then Some (newFloats newDataSize)
        else if negb (smoothing_ t) then None
        else sourceHeightData_ t in
      mkPlan numLodLevels patchWorldSize numPatches numVertices
             patchWorldOrigin (updateAll || freshSource) heightData
             sourceHeightData
  | None =>
      mkPlan numLodLevels patchWorldSize IntVector2_ZERO IntVector2_ZERO
             Vector2_ZERO false None None
  end.

(** The dirty flags: all patches on a full update, else the patches of
    the expanded update region. *)
Definition dirtyPatchesOf (patchSize : Z) (p : Plan) (updateRegion : IntRect)
  : list bool :=
  let all :=
    repeat (plan_updateAll p)
           (Z.to_nat (u32 (ix_ (plan_numPatches p) * iy_ (plan_numPatches p)))) in
  if plan_updateAll p then all
  else markDirty (plan_numPatches p)
         (dirtyRange patchSize (plan_numPatches p)
            (expandRegion (plan_numLodLevels p) updateRegion))
         all.

(** The children of the node once the patch nodes that are no longer
    needed are removed (on a full update only). *)
Definition keptChildren (p : Plan) (node : Node) : list (IntVector2 * PatchNode) :=
  if plan_updateAll p
  then filter (fun c => (ix_ (fst c) <? ix_ (plan_numPatches p))
                        && (iy_ (fst c) <? iy_ (plan_numPatches p)))
              (children_ node)
  else children_ node.

(** The array the copy loop writes to: the source heights when smoothing
    is on, the height data otherwise. *)
Definition copyDest (t : Terrain) (p : Plan) : list f32 :=
  match (if smoothing_ t then plan_sourceHeightData p else plan_heightData p) with
  | Some d => d
  | None => []
  end.

(** The smallest rectangle around the samples the copy loop found
    changed; (-1,-1,-1,-1) when it found none or on a full update. *)
Definition updateRegionOf (t : Terrain) (img : Image) : IntRect :=
  let p := planGeometry t in
  snd (copyHeightData (plan_updateAll p) (copyDest t p) (plan_numVertices p)
         (newHeight img (plan_numVertices p) (spacing_ t))).

Definition patchRefs (node : Node) (numPatches : IntVector2) : list PatchRef :=
  map (fun xz => mkPatchRef (id_ node) (fst xz) (snd xz)) (patchCoords numPatches).

(** [CreateGeometry] with a height map, up to the loop that builds the
    patches: sizes, height data, dirty flags, patch nodes, index data and
    the smoothing pass. *)
Definition prepareGeometry (t : Terrain) (node : Node) (img : Image)
  : Terrain * list bool :=
  let p := planGeometry t in
  let numPatches := plan_numPatches p in
  let numVertices := plan_numVertices p in
  let updateAll := plan_updateAll p in
  let children := keptChildren p node in
  (* copy heightmap data *)
  let dest' :=
    fst (copyHeightData updateAll (copyDest t p) numVertices
           (newHeight img numVertices (spacing_ t))) in
  let updateRegion := updateRegionOf t img in
  let heightData :=
    if smoothing_ t then plan_heightData p else Some dest' in
  let sourceHeightData :=
    if smoothing_ t then Some dest' else plan_sourceHeightData p in
  (* which patches change *)
  let dirtyPatches := dirtyPatchesOf (patchSize_ t) p updateRegion in
  (* create patches and set node transforms *)
  let children :=
    fold_left (createPatchNode (plan_patchWorldOrigin p) (plan_patchWorldSize p))
              (patchCoords numPatches) children in
  let patches := patchRefs node numPatches in
  (* the shared index data *)
  let indexData :=
    if updateAll
    then CreateIndexData (patchSize_ t) (plan_numLodLevels p)
    else mkIndexData (indexBuffer_ t) (drawRanges_ t) in
  let t1 :=
    mkTerrain (Some (withChildren node children)) (indices indexData)
      (Some img) heightData sourceHeightData (spacing_ t) (spacing_ t)
      (plan_patchWorldOrigin p) (plan_patchWorldSize p) numVertices
      numVertices numPatches (patchSize_ t) (patchSize_ t)
      (plan_numLodLevels p) (maxLodLevels_ t) (occlusionLodLevel_ t)
      (smoothing_ t) (bakeLightmap_ t) patches (drawRanges indexData)
      (north_ t) (south_ t) (west_ t) (east_ t) false in
  (* smoothing over the dirty patches *)
  let t2 :=
    if smoothing_ t then
      withHeightData t1
        (match heightData with
         | Some d =>
             Some (fold_left (smoothPatch t1) (combine patches dirtyPatches) d)
         | None => None
         end)
    else t1 in
  (t2, dirtyPatches).

Definition CreateGeometry (sc : Scene) (t : Terrain) : Terrain * list Event :=
  match node_ t with
  | None => (withRecreateTerrain t false, [CreateGeometry_called])
  | Some node =>
      let prevNumPatches := length (patches_ t) in
      match heightMap_ t with
      | None =>
          let p := planGeometry t in
          let t' :=
            mkTerrain (Some (withChildren node (keptChildren p node)))
              (indexBuffer_ t) None
              None None (spacing_ t) (spacing_ t) (plan_patchWorldOrigin p)
              (plan_patchWorldSize p) (plan_numVertices p) (plan_numVertices p)
              (plan_numPatches p)
              (patchSize_ t) (patchSize_ t) (plan_numLodLevels p)
              (maxLodLevels_ t) (occlusionLodLevel_ t) (smoothing_ t)
              (bakeLightmap_ t) [] (drawRanges_ t) (north_ t) (south_ t)
              (west_ t) (east_ t) false in
          (t', CreateGeometry_called ::
               if negb (Z.of_nat prevNumPatches =? 0)
               then [TerrainCreated_sent (id_ node)] else [])
      | Some img =>
          let '(t2, dirtyPatches) := prepareGeometry t node img in
          (* vertex data, LOD errors and neighbours *)
          let t3 :=
            fold_left (buildPatch sc) (combine (patches_ t2) dirtyPatches) t2 in
          (t3, CreateGeometry_called ::
               if negb (Z.of_nat (length (patches_ t2)) =? 0)
                  || negb (Z.of_nat prevNumPatches =? 0)
               then [TerrainCreated_sent (id_ node)] else [])
      end
  end.


(* ================================================================== *)
(** ** Configuration *)

Definition withPatchSize (t : Terrain) (size : Z) : Terrain :=
  mkTerrain (node_ t) (indexBuffer_ t) (heightMap_ t) (heightData_ t)
    (sourceHeightData_ t) (spacing_ t) (lastSpacing_ t) (patchWorldOrigin_ t)
    (patchWorldSize_ t) (numVertices_ t) (lastNumVertices_ t) (numPatches_ t)
    size (lastPatchSize_ t) (numLodLevels_ t) (maxLodLevels_ t)
    (occlusionLodLevel_ t) (smoothing_ t) (bakeLightmap_ t) (patches_ t)
    (drawRanges_ t) (north_ t) (south_ t) (west_ t) (east_ t)
    (recreateTerrain_ t).


(** [maxLodLevels_ = levels; lastPatchSize_ = 0;] *)
Definition withMaxLodLevels (t : Terrain) (levels : Z) : Terrain :=
  mkTerrain (node_ t) (indexBuffer_ t) (heightMap_ t) (heightData_ t)
    (sourceHeightData_ t) (spacing_ t) (lastSpacing_ t) (patchWorldOrigin_ t)
    (patchWorldSize_ t) (numVertices_ t) (lastNumVertices_ t) (numPatches_ t)
    (patchSize_ t) 0 (numLodLevels_ t) levels
    (occlusionLodLevel_ t) (smoothing_ t) (bakeLightmap_ t) (patches_ t)
    (drawRanges_ t) (north_ t) (south_ t) (west_ t) (east_ t)
    (recreateTerrain_ t).

(** [occlusionLodLevel_ = level; lastPatchSize_ = 0;] *)
Definition withOcclusionLodLevel (t : Terrain) (level : Z) : Terrain :=
  mkTerrain (node_ t) (indexBuffer_ t) (heightMap_ t) (heightData_ t)
    (sourceHeightData_ t) (spacing_ t) (lastSpacing_ t) (patchWorldOrigin_ t)
    (patchWorldSize_ t) (numVertices_ t) (lastNumVertices_ t) (numPatches_ t)
    (patchSize_ t) 0 (numLodLevels_ t) (maxLodLevels_ t)
    level (smoothing_ t) (bakeLightmap_ t) (patches_ t)
    (drawRanges_ t) (north_ t) (south_ t) (west_ t) (east_ t)
    (recreateTerrain_ t).

Definition withSmoothing (t : Terrain) (enable : bool) : Terrain :=
  mkTerrain (node_ t) (indexBuffer_ t) (heightMap_ t) (heightData_ t)
    (sourceHeightData_ t) (spacing_ t) (lastSpacing_ t) (patchWorldOrigin_ t)
    (patchWorldSize_ t) (numVertices_ t) (lastNumVertices_ t) (numPatches_ t)
    (patchSize_ t) (lastPatchSize_ t) (numLodLevels_ t) (maxLodLevels_ t)
    (occlusionLodLevel_ t) enable (bakeLightmap_ t) (patches_ t)
    (drawRanges_ t) (north_ t) (south_ t) (west_ t) (east_ t)
    (recreateTerrain_ t).

Definition withHeightMap (t : Terrain) (image : option Image) : Terrain :=
  mkTerrain (node_ t) (indexBuffer_ t) image (heightData_ t)
    (sourceHeightData_ t) (spacing_ t) (lastSpacing_ t) (patchWorldOrigin_ t)
    (patchWorldSize_ t) (numVertices_ t) (lastNumVertices_ t) (numPatches_ t)
    (patchSize_ t) (lastPatchSize_ t) (numLodLevels_ t) (maxLodLevels_ t)
    (occlusionLodLevel_ t) (smoothing_ t) (bakeLightmap_ t) (patches_ t)
    (drawRanges_ t) (north_ t) (south_ t) (west_ t) (east_ t)
    (recreateTerrain_ t).

(** The test both [SetPatchSize] and [SetPatchSizeAttr] start with. *)
Definition patchSizeRejected (size : Z) : bool :=
  (size <? MIN_PATCH_SIZE) || (size >? MAX_PATCH_SIZE)
  || negb (IsPowerOfTwo (u32 size)).

Definition SetPatchSize (sc : Scene) (t : Terrain) (size : Z)
  : Terrain * list Event :=
  if patchSizeRejected size then (t, [])
  else if negb (size =? patchSize_ t)
       then CreateGeometry sc (withPatchSize t size)
       else (t, []).


Definition SetMaxLodLevels (sc : Scene) (t : Terrain) (levels : Z)
  : Terrain * list Event :=
  let levels := Clamp levels MIN_LOD_LEVELS MAX_LOD_LEVELS in
  if negb (levels =? maxLodLevels_ t)
  then CreateGeometry sc (withMaxLodLevels t levels)
  else (t, []).

Definition SetOcclusionLodLevel (sc : Scene) (t : Terrain) (level : Z)
  : Terrain * list Event :=
  if negb (level =? occlusionLodLevel_ t)
  then CreateGeometry sc (withOcclusionLodLevel t level)
  else (t, []).

Definition SetSmoothing (sc : Scene) (t : Terrain) (enable : bool)
  : Terrain * list Event :=
  if negb (Bool.eqb enable (smoothing_ t))
  then CreateGeometry sc (withSmoothing t enable)
  else (t, []).

Definition SetPatchSizeAttr (t : Terrain) (value : Z) : Terrain :=
  if patchSizeRejected value then t
  else if negb (value =? patchSize_ t)
       then withRecreateTerrain (withPatchSize t value) true
       else t.

Definition SetMaxLodLevelsAttr (t : Terrain) (value : Z) : Terrain :=
  let value := Clamp value MIN_LOD_LEVELS MAX_LOD_LEVELS in
  if negb (value =? maxLodLevels_ t)
  then withRecreateTerrain (withMaxLodLevels t value) true
  else t.

Definition SetHeightMapInternal (sc : Scene) (t : Terrain)
           (image : option Image) (recreateNow : bool)
  : bool * Terrain * list Event :=
  match image with
  | Some img =>
      if compressed_ img
      then (false, t, [LogError_compressed_heightmap])
      else
        let unsub := match heightMap_ t with
                     | Some _ => [Unsubscribe_ReloadFinished]
                     | None => []
                     end in
        let t := withHeightMap t image in
        if recreateNow
        then let '(t', ev) := CreateGeometry sc t in
             (true, t', unsub ++ [Subscribe_ReloadFinished] ++ ev)
        else (true, withRecreateTerrain t true,
              unsub ++ [Subscribe_ReloadFinished])
  | None =>
      let unsub := match heightMap_ t with
                   | Some _ => [Unsubscribe_ReloadFinished]
                   | None => []
                   end in
      let t := withHeightMap t None in
      if recreateNow
      then let '(t', ev) := CreateGeometry sc t in (true, t', unsub ++ ev)
      else (true, withRecreateTerrain t true, unsub)
  end.

Definition SetHeightMap (sc : Scene) (t : Terrain) (image : option Image)
  : bool * Terrain * list Event :=
  SetHeightMapInternal sc t image true.

(** Attaching the component to a scene node. *)
Definition attach (t : Terrain) (n : Node) : Terrain := withNode t (Some n).

(* ================================================================== *)
(** ** Draw range selection *)

(** The level of the patch behind a neighbour pointer, if it is there. *)
Definition neighbourLod (sc : Scene) (t : Terrain) (r : option PatchRef)
  : option Z :=
  match r with
  | Some r =>
      match derefPatch sc t r with
      | Some p => Some (TerrainPatch.lodLevel_ p)
      | None => None
      end
  | None => None
  end.

(** [if (n && n->GetLodLevel() > lodLevel) drawRangeIndex |= flag;] *)
Definition stitchToward (n : option Z) (lodLevel flag drawRangeIndex : Z) : Z :=
  match n with
  | Some l => if l >? lodLevel then Z.lor drawRangeIndex flag else drawRangeIndex
  | None => drawRangeIndex
  end.

(** The [drawRangeIndex] that [UpdatePatchLod] arrives at, from the level
    of the patch and the levels of the neighbours that exist. *)
Definition drawRangeIndexOf (numLodLevels lodLevel : Z)
           (north south west east : option Z) : Z :=
  let drawRangeIndex := u32 (Z.shiftl lodLevel 4) in
  if lodLevel <? u32 (numLodLevels - 1) then
    let drawRangeIndex := stitchToward north lodLevel STITCH_NORTH drawRangeIndex in
    let drawRangeIndex := stitchToward south lodLevel STITCH_SOUTH drawRangeIndex in
    let drawRangeIndex := stitchToward west lodLevel STITCH_WEST drawRangeIndex in
    let drawRangeIndex := stitchToward east lodLevel STITCH_EAST drawRangeIndex in
    drawRangeIndex
  else drawRangeIndex.

Definition patchDrawRangeIndex (sc : Scene) (t : Terrain)
           (patch : TerrainPatch.t) : Z :=
  drawRangeIndexOf (numLodLevels_ t) (TerrainPatch.lodLevel_ patch)
    (neighbourLod sc t (TerrainPatch.north_ patch))
    (neighbourLod sc t (TerrainPatch.south_ patch))
    (neighbourLod sc t (TerrainPatch.west_ patch))
    (neighbourLod sc t (TerrainPatch.east_ patch)).

Definition UpdatePatchLod (sc : Scene) (t : Terrain) (patch : TerrainPatch.t)
  : TerrainPatch.t :=
  let drawRangeIndex := patchDrawRangeIndex sc t patch in
  if drawRangeIndex <? Z.of_nat (length (drawRanges_ t))
  then TerrainPatch.SetDrawRange patch
         (nth (Z.to_nat drawRangeIndex) (drawRanges_ t) (0, 0))
  else patch.

(* ================================================================== *)
(** * Properties *)

(** ** Integer helpers *)

Lemma Clamp_bounds (v lo hi : Z) : lo <= hi -> lo <= Clamp v lo hi <= hi.
Proof.
  intros H. unfold Clamp.
  destruct (v <? lo) eqn:E1; [lia|].
  destruct (v >? hi) eqn:E2; lia.
Qed.


Lemma Clamp_spec (v lo hi : Z) :
  lo <= hi ->
  Clamp v lo hi = Z.max lo (Z.min v hi).
Proof.
  intros H. unfold Clamp.
  destruct (v <? lo) eqn:E1; [lia|].
  destruct (v >? hi) eqn:E2; lia.
Qed.

Lemma IntVector2_eqb_eq (a b : IntVector2) :
  IntVector2_eqb a b = true <-> a = b.
Proof.
  destruct a as [ax ay], b as [bx b_y]. unfold IntVector2_eqb. simpl.
  rewrite andb_true_iff, !Z.eqb_eq. split.
  - intros [-> ->]. reflexivity.
  - intros H. inversion H. auto.
Qed.

Lemma IntVector2_eqb_refl (a : IntVector2) : IntVector2_eqb a a = true.
Proof. apply IntVector2_eqb_eq. reflexivity. Qed.

Lemma IntVector2_eqb_neq (a b : IntVector2) :
  IntVector2_eqb a b = false <-> a <> b.
Proof.
  split.
  - intros H E. apply IntVector2_eqb_eq in E. congruence.
  - intros H. destruct (IntVector2_eqb a b) eqn:E; [|reflexivity].
    apply IntVector2_eqb_eq in E. contradiction.
Qed.

(** Membership in the value lists of the loops. *)
Lemma in_for_range_1 (a b v : Z) : In v (for_range a b 1) <-> a <= v < b.
Proof.
  unfold for_range. rewrite in_map_iff. split.
  - intros [k [<- Hk]]. apply in_seq in Hk.
    replace ((b - a + 1 - 1) / 1) with (b - a) in Hk by (rewrite Z.div_1_r; lia).
    lia.
  - intros H. exists (Z.to_nat (v - a)). split; [lia|].
    apply in_seq. replace ((b - a + 1 - 1) / 1) with (b - a) by (rewrite Z.div_1_r; lia).
    lia.
Qed.

Lemma in_for_incl (a b v : Z) : In v (for_incl a b) <-> a <= v <= b.
Proof. unfold for_incl. rewrite in_for_range_1. lia. Qed.

Lemma length_for_range_1 (a b : Z) :
  length (for_range a b 1) = Z.to_nat (b - a).
Proof.
  unfold for_range. rewrite length_map, length_seq.
  f_equal. rewrite Z.div_1_r. lia.
Qed.

Lemma in_extentSamples (x0 x1 z0 z1 x z : Z) :
  In (x, z) (extentSamples x0 x1 z0 z1) <-> (x0 <= x <= x1 /\ z0 <= z <= z1).
Proof.
  unfold extentSamples. rewrite in_flat_map. split.
  - intros [z' [Hz Hx]]. apply in_map_iff in Hx. destruct Hx as [x' [E Hx]].
    inversion E; subst. apply in_for_incl in Hz. apply in_for_incl in Hx. lia.
  - intros [Hx Hz]. exists z. split; [apply in_for_incl; lia|].
    apply in_map_iff. exists x. split; [reflexivity|apply in_for_incl; lia].
Qed.

Lemma length_flat_map_const {A B} (f : A -> list B) (l : list A) (n : nat) :
  (forall a, In a l -> length (f a) = n) ->
  length (flat_map f l) = (length l * n)%nat.
Proof.
  induction l as [|a l IH]; intros H; simpl; [reflexivity|].
  rewrite length_app, H by (left; reflexivity).
  rewrite IH by (intros; apply H; right; assumption). lia.
Qed.


(* ================================================================== *)
(** ** Queries on a detached terrain *)

(** C10.  On a terrain that is not attached to a scene node [GetHeight]
    is 0.0 and [GetNormal] is the unit up vector at every world position,
    whatever the height storage holds; and without height data
    [GetRawHeight] is 0.0 at every coordinate.  All three are total
    functions. *)
Theorem detached_queries_default (t : Terrain) :
  (node_ t = None ->
   forall (worldPosition : Vector3) (d : option (list f32)),
     GetHeight (withHeightData t d) worldPosition = zero /\
     GetNormal (withHeightData t d) worldPosition = Vector3_UP) /\
  (heightData_ t = None -> forall x z : Z, GetRawHeight t x z = zero).
Proof.
  split.
  - intros Hn p d. unfold GetHeight, GetNormal. simpl. rewrite Hn. split; reflexivity.
  - intros Hd x z. unfold GetRawHeight. rewrite Hd. reflexivity.
Qed.

Lemma detached_queries_default_witness :
  GetHeight Terrain_new (mkVector3 one one one) = zero /\
  GetNormal Terrain_new (mkVector3 one one one) = Vector3_UP /\
  GetRawHeight Terrain_new 3 (-7) = zero.
Proof.
  destruct (detached_queries_default Terrain_new) as [H1 H2].
  destruct (H1 eq_refl (mkVector3 one one one) None) as [Ha Hb].
  split; [exact Ha|]. split; [exact Hb|].
  exact (H2 eq_refl 3 (-7)).
Defined.

(* ================================================================== *)
(** ** Rejected height images *)

(** C7.  A block-compressed image is refused: [SetHeightMapInternal]
    returns [false], the terrain (height map reference, height data and
    every other member) is the one it was, and nothing but the error log
    line happens; in particular [CreateGeometry] is not entered. *)
Theorem compressed_heightmap_rejected
        (sc : Scene) (t : Terrain) (img : Image) (recreateNow : bool) :
  compressed_ img = true ->
  SetHeightMapInternal sc t (Some img) recreateNow
  = (false, t, [LogError_compressed_heightmap])
  /\ SetHeightMap sc t (Some img) = (false, t, [LogError_compressed_heightmap])
  /\ ~ In CreateGeometry_called
        (snd (SetHeightMapInternal sc t (Some img) recreateNow)).
Proof.
  intros H. unfold SetHeightMap, SetHeightMapInternal. rewrite H.
  repeat split. simpl. intros [E|[]]. discriminate.
Qed.

Definition compressedImage : Image := mkImage 8 8 1 true [].

Lemma compressed_heightmap_rejected_witness :
  SetHeightMapInternal (fun _ => None) Terrain_new (Some compressedImage) true
  = (false, Terrain_new, [LogError_compressed_heightmap]).
Proof.
  exact (proj1 (compressed_heightmap_rejected (fun _ => None) Terrain_new
                  compressedImage true eq_refl)).
Defined.

(* ================================================================== *)
(** ** Stitch bits of the selected draw range *)

Definition coarserb (n : option Z) (lodLevel : Z) : bool :=
  match n with
  | Some l => l >? lodLevel
  | None => false
  end.

Lemma stitchToward_testbit (n : option Z) (l flag idx i : Z) :
  Z.testbit (stitchToward n l flag idx) i
  = Z.testbit idx i || (coarserb n l && Z.testbit flag i).
Proof.
  unfold stitchToward, coarserb. destruct n as [x|].
  - destruct (x >? l); [apply Z.lor_spec|].
    simpl. rewrite orb_false_r. reflexivity.
  - simpl. rewrite orb_false_r. reflexivity.
Qed.

Lemma level_bits_low (l i : Z) :
  0 <= i < 4 -> Z.testbit (u32 (Z.shiftl l 4)) i = false.
Proof.
  intros H. unfold u32. rewrite Z.mod_pow2_bits_low by lia.
  apply Z.shiftl_spec_low. lia.
Qed.

Lemma drawRangeIndexOf_bits (numLod l : Z) (n s w e : option Z) :
  (l <? u32 (numLod - 1)) = true ->
  (let idx := drawRangeIndexOf numLod l n s w e in
   Z.testbit idx 0 = coarserb n l /\
   Z.testbit idx 1 = coarserb s l /\
   Z.testbit idx 2 = coarserb w l /\
   Z.testbit idx 3 = coarserb e l).
Proof.
  intros H. unfold drawRangeIndexOf. rewrite H. cbv zeta.
  repeat split; rewrite !stitchToward_testbit, level_bits_low by lia;
    unfold STITCH_NORTH, STITCH_SOUTH, STITCH_WEST, STITCH_EAST; simpl;
    repeat rewrite ?andb_false_r, ?andb_true_r, ?orb_false_r, ?orb_false_l;
    reflexivity.
Qed.

(** The neighbour behind a pointer exists and is at a coarser level. *)
Definition coarserNeighbour (sc : Scene) (t : Terrain) (patch : TerrainPatch.t)
           (link : option PatchRef) : Prop :=
  exists r p,
    link = Some r /\ derefPatch sc t r = Some p /\
    TerrainPatch.lodLevel_ p > TerrainPatch.lodLevel_ patch.

Lemma coarserb_neighbourLod (sc : Scene) (t : Terrain) (patch : TerrainPatch.t)
      (link : option PatchRef) :
  coarserb (neighbourLod sc t link) (TerrainPatch.lodLevel_ patch) = true
  <-> coarserNeighbour sc t patch link.
Proof.
  unfold coarserb, neighbourLod, coarserNeighbour. split.
  - destruct link as [r|]; [|discriminate].
    destruct (derefPatch sc t r) as [p|] eqn:E; [|discriminate].
    intros H. exists r, p. repeat split; try assumption. lia.
  - intros [r [p [-> [-> H]]]]. lia.
Qed.

(** A stitch flag is one bit of the draw-range index. *)
Definition hasStitch (drawRangeIndex flag : Z) : bool :=
  Z.testbit drawRangeIndex (Z.log2 flag).

(** C2.  For a patch below the coarsest level, the draw-range index that
    [UpdatePatchLod] selects has the north, south, west or east stitch
    bit exactly when that neighbour exists and is at a strictly greater
    (coarser) level; an absent neighbour gives no bit.  The draw range
    set on the geometry is the table entry at that index. *)
Theorem UpdatePatchLod_stitch_bits
        (sc : Scene) (t : Terrain) (patch : TerrainPatch.t) :
  TerrainPatch.lodLevel_ patch < u32 (numLodLevels_ t - 1) ->
  (let idx := patchDrawRangeIndex sc t patch in
  (hasStitch idx STITCH_NORTH = true
   <-> coarserNeighbour sc t patch (TerrainPatch.north_ patch)) /\
  (hasStitch idx STITCH_SOUTH = true
   <-> coarserNeighbour sc t patch (TerrainPatch.south_ patch)) /\
  (hasStitch idx STITCH_WEST = true
   <-> coarserNeighbour sc t patch (TerrainPatch.west_ patch)) /\
  (hasStitch idx STITCH_EAST = true
   <-> coarserNeighbour sc t patch (TerrainPatch.east_ patch)) /\
  (idx < Z.of_nat (length (drawRanges_ t)) ->
   (let g := TerrainPatch.geometry_ (UpdatePatchLod sc t patch) in
    (indexStart g, indexCount g) = nth (Z.to_nat idx) (drawRanges_ t) (0, 0)))).
Proof.
  intros H idx.
  assert (Hb : (TerrainPatch.lodLevel_ patch <? u32 (numLodLevels_ t - 1)) = true)
    by (apply Z.ltb_lt; exact H).
  destruct (drawRangeIndexOf_bits (numLodLevels_ t) (TerrainPatch.lodLevel_ patch)
              (neighbourLod sc t (TerrainPatch.north_ patch))
              (neighbourLod sc t (TerrainPatch.south_ patch))
              (neighbourLod sc t (TerrainPatch.west_ patch))
              (neighbourLod sc t (TerrainPatch.east_ patch)) Hb)
    as [B0 [B1 [B2 B3]]].
  unfold hasStitch, STITCH_NORTH, STITCH_SOUTH, STITCH_WEST, STITCH_EAST.
  change (Z.log2 1) with 0. change (Z.log2 2) with 1.
  change (Z.log2 4) with 2. change (Z.log2 8) with 3.
  subst idx. unfold patchDrawRangeIndex.
  rewrite B0, B1, B2, B3, !coarserb_neighbourLod.
  repeat split; try tauto.
  intros Hlt. unfold UpdatePatchLod, patchDrawRangeIndex.
  apply Z.ltb_lt in Hlt. unfold patchDrawRangeIndex in Hlt. rewrite Hlt.
  simpl. destruct (nth _ (drawRanges_ t) (0, 0)); reflexivity.
Qed.

(** A two-patch terrain: the patch at (0,0) is at level 0, its east
    neighbour at (1,0) at level 1. *)
Definition plainNode (cs : list (IntVector2 * PatchNode)) : Node :=
  mkNode 1 (fun v => v) (fun v => v) (fun v => v)
         (mkVector3 one one one) Vector3_ZERO cs.

Definition westPatch : TerrainPatch.t :=
  TerrainPatch.SetNeighbors (TerrainPatch.create (mkIntVector2 0 0))
    None None None (Some (mkPatchRef 1 1 0)).

Definition eastPatch : TerrainPatch.t :=
  let p := TerrainPatch.create (mkIntVector2 1 0) in
  TerrainPatch.mk (TerrainPatch.coordinates_ p) (TerrainPatch.vertexBuffer_ p)
    (TerrainPatch.geometry_ p) (TerrainPatch.maxLodGeometry_ p)
    (TerrainPatch.occlusionGeometry_ p) (TerrainPatch.boundingBox_ p) []
    1 None None (Some (mkPatchRef 1 0 0)) None.

Definition twoPatchTerrain : Terrain :=
  mkTerrain
    (Some (plainNode [(mkIntVector2 0 0, mkPatchNode Vector3_ZERO westPatch);
                      (mkIntVector2 1 0, mkPatchNode Vector3_ZERO eastPatch)]))
    [] None None None DEFAULT_SPACING DEFAULT_SPACING Vector2_ZERO Vector2_ZERO
    (mkIntVector2 9 5) (mkIntVector2 9 5) (mkIntVector2 2 1) 4 4 2 2
    M_MAX_UNSIGNED false false [mkPatchRef 1 0 0; mkPatchRef 1 1 0]
    (drawRanges (CreateIndexData 4 2)) None None None None false.

Lemma UpdatePatchLod_stitch_bits_witness :
  hasStitch (patchDrawRangeIndex (fun _ => None) twoPatchTerrain westPatch)
            STITCH_EAST = true
  /\ hasStitch (patchDrawRangeIndex (fun _ => None) twoPatchTerrain westPatch)
               STITCH_NORTH = false.
Proof.
  assert (H : TerrainPatch.lodLevel_ westPatch
              < u32 (numLodLevels_ twoPatchTerrain - 1)) by reflexivity.
  destruct (UpdatePatchLod_stitch_bits (fun _ => None) twoPatchTerrain westPatch H)
    as [HN [_ [_ [HE _]]]].
  split.
  - apply HE. exists (mkPatchRef 1 1 0), eastPatch.
    repeat split.
  - apply not_true_is_false. intros E.
    apply HN in E. destruct E as [r [p [E _]]]. discriminate E.
Defined.

(* ================================================================== *)
(** ** What regeneration leaves alone *)

(** Everything of a terrain but its scene node. *)
Definition configOf (t : Terrain) : Terrain := withNode t None.

Lemma putOwnPatch_config (t : Terrain) (r : PatchRef) (c : PatchNode) :
  configOf (putOwnPatch t r c) = configOf t.
Proof. unfold putOwnPatch. destruct (node_ t); reflexivity. Qed.

Lemma buildPatch_config (sc : Scene) (t : Terrain) (rd : PatchRef * bool) :
  configOf (buildPatch sc t rd) = configOf t.
Proof.
  unfold buildPatch. destruct rd as [r d].
  destruct (ownPatch t r); [apply putOwnPatch_config|reflexivity].
Qed.

Lemma fold_buildPatch_config (sc : Scene) (l : list (PatchRef * bool)) (t : Terrain) :
  configOf (fold_left (buildPatch sc) l t) = configOf t.
Proof.
  revert t. induction l as [|rd l IH]; intros t; simpl; [reflexivity|].
  rewrite IH. apply buildPatch_config.
Qed.

(** The first thing a call of [CreateGeometry] leaves in the trace is the
    mark of the call. *)
Lemma CreateGeometry_trace (sc : Scene) (t : Terrain) :
  exists rest, snd (CreateGeometry sc t) = CreateGeometry_called :: rest.
Proof.
  unfold CreateGeometry. destruct (node_ t) as [n|]; [|eexists; reflexivity].
  destruct (heightMap_ t) as [img|]; [|eexists; reflexivity].
  destruct (prepareGeometry t n img) as [t2 dirty].
  eexists. reflexivity.
Qed.

Lemma CreateGeometry_called_in (sc : Scene) (t : Terrain) :
  In CreateGeometry_called (snd (CreateGeometry sc t)).
Proof.
  destruct (CreateGeometry_trace sc t) as [rest ->]. left. reflexivity.
Qed.

Lemma prepareGeometry_settings (t : Terrain) (node : Node) (img : Image) :
  let t2 := fst (prepareGeometry t node img) in
  patchSize_ t2 = patchSize_ t /\
  maxLodLevels_ t2 = maxLodLevels_ t /\
  occlusionLodLevel_ t2 = occlusionLodLevel_ t /\
  spacing_ t2 = spacing_ t /\
  smoothing_ t2 = smoothing_ t /\
  bakeLightmap_ t2 = bakeLightmap_ t /\
  heightMap_ t2 = Some img.
Proof.
  unfold prepareGeometry. cbv zeta. cbn [fst].
  destruct (smoothing_ t); repeat split; reflexivity.
Qed.

(** The configuration members [CreateGeometry] never assigns. *)
Lemma CreateGeometry_keeps_settings (sc : Scene) (t : Terrain) :
  let t' := fst (CreateGeometry sc t) in
  patchSize_ t' = patchSize_ t /\
  maxLodLevels_ t' = maxLodLevels_ t /\
  occlusionLodLevel_ t' = occlusionLodLevel_ t /\
  spacing_ t' = spacing_ t /\
  smoothing_ t' = smoothing_ t /\
  heightMap_ t' = heightMap_ t.
Proof.
  unfold CreateGeometry. destruct (node_ t) as [n|]; [|simpl; tauto].
  destruct (heightMap_ t) as [img|] eqn:Himg; [|simpl; tauto].
  pose proof (prepareGeometry_settings t n img) as Hs.
  destruct (prepareGeometry t n img) as [t2 dirty]. cbn [fst] in *.
  pose proof (fold_buildPatch_config sc (combine (patches_ t2) dirty) t2) as Hc.
  remember (fold_left (buildPatch sc) (combine (patches_ t2) dirty) t2) as t3.
  destruct Hs as [H1 [H2 [H3 [H4 [H5 [H6 H7]]]]]].
  repeat split.
  - change (patchSize_ t3) with (patchSize_ (configOf t3)). rewrite Hc. exact H1.
  - change (maxLodLevels_ t3) with (maxLodLevels_ (configOf t3)). rewrite Hc. exact H2.
  - change (occlusionLodLevel_ t3) with (occlusionLodLevel_ (configOf t3)).
    rewrite Hc. exact H3.
  - change (spacing_ t3) with (spacing_ (configOf t3)). rewrite Hc. exact H4.
  - change (smoothing_ t3) with (smoothing_ (configOf t3)). rewrite Hc. exact H5.
  - change (heightMap_ t3) with (heightMap_ (configOf t3)). rewrite Hc. exact H7.
Qed.

(* ================================================================== *)
(** ** Configuration requests *)

Definition isPowerOfTwo (n : Z) : Prop := exists k, 0 <= k /\ n = 2 ^ k.

Lemma range_forallb (P : Z -> bool) (a b : Z) :
  forallb P (for_incl a b) = true -> forall z, a <= z <= b -> P z = true.
Proof.
  intros H z Hz. rewrite forallb_forall in H. apply H. apply in_for_incl. exact Hz.
Qed.

Lemma IsPowerOfTwo_in_range (size : Z) :
  MIN_PATCH_SIZE <= size <= MAX_PATCH_SIZE ->
  (IsPowerOfTwo (u32 size) = true <-> isPowerOfTwo size).
Proof.
  unfold MIN_PATCH_SIZE, MAX_PATCH_SIZE. intros Hr. split.
  - intros H.
    assert (C : implb (IsPowerOfTwo (u32 size))
                      (existsb (fun k => size =? 2 ^ k) [2; 3; 4; 5; 6; 7]) = true).
    { apply (range_forallb
               (fun z => implb (IsPowerOfTwo (u32 z))
                               (existsb (fun k => z =? 2 ^ k) [2; 3; 4; 5; 6; 7]))
               4 128); [vm_compute; reflexivity|exact Hr]. }
    rewrite H in C. cbn [implb] in C. apply existsb_exists in C.
    destruct C as [k [Hk E]]. apply Z.eqb_eq in E. exists k. split; [|exact E].
    simpl in Hk. lia.
  - intros [k [Hk E]].
    assert (Hk2 : 2 <= k <= 7).
    { split.
      - destruct (Z_lt_le_dec k 2) as [L|L]; [|exact L].
        assert (2 ^ k <= 2 ^ 1) by (apply Z.pow_le_mono_r; lia). lia.
      - destruct (Z_lt_le_dec 7 k) as [L|L]; [|lia].
        assert (2 ^ 8 <= 2 ^ k) by (apply Z.pow_le_mono_r; lia). lia. }
    assert (K : k = 2 \/ k = 3 \/ k = 4 \/ k = 5 \/ k = 6 \/ k = 7) by lia.
    destruct K as [K|[K|[K|[K|[K|K]]]]]; subst; reflexivity.
Qed.

Lemma patchSizeRejected_spec (size : Z) :
  patchSizeRejected size = false
  <-> (MIN_PATCH_SIZE <= size <= MAX_PATCH_SIZE /\ isPowerOfTwo size).
Proof.
  unfold patchSizeRejected. rewrite !orb_false_iff, negb_false_iff. split.
  - intros [[H1 H2] H3].
    assert (Hr : MIN_PATCH_SIZE <= size <= MAX_PATCH_SIZE) by lia.
    split; [exact Hr|]. apply IsPowerOfTwo_in_range; assumption.
  - intros [Hr Hp]. repeat split; try lia.
    apply IsPowerOfTwo_in_range; assumption.
Qed.

(** C6 (as the code has it).  A patch size that is not a power of two, or
    lies outside [4,128], is ignored: the terrain is the one it was and
    [CreateGeometry] is not entered.  A max-LOD-levels value is clamped
    into [1,4] instead of being refused; regeneration follows when, and
    only when, the clamped value differs from the current one. *)
Theorem configuration_requests (sc : Scene) (t : Terrain) :
  (forall size : Z,
     ~ (MIN_PATCH_SIZE <= size <= MAX_PATCH_SIZE /\ isPowerOfTwo size) ->
     SetPatchSize sc t size = (t, [])) /\
  (forall levels : Z,
     let c := Clamp levels MIN_LOD_LEVELS MAX_LOD_LEVELS in
     MIN_LOD_LEVELS <= c <= MAX_LOD_LEVELS /\
     (levels < MIN_LOD_LEVELS -> c = MIN_LOD_LEVELS) /\
     (levels > MAX_LOD_LEVELS -> c = MAX_LOD_LEVELS) /\
     (c = maxLodLevels_ t -> SetMaxLodLevels sc t levels = (t, [])) /\
     (c <> maxLodLevels_ t ->
      SetMaxLodLevels sc t levels = CreateGeometry sc (withMaxLodLevels t c) /\
      In CreateGeometry_called (snd (SetMaxLodLevels sc t levels)) /\
      maxLodLevels_ (fst (SetMaxLodLevels sc t levels)) = c)).
Proof.
  split.
  - intros size H. unfold SetPatchSize.
    destruct (patchSizeRejected size) eqn:E; [reflexivity|].
    apply patchSizeRejected_spec in E. contradiction.
  - intros levels c.
    assert (Hc : MIN_LOD_LEVELS <= c <= MAX_LOD_LEVELS)
      by (apply Clamp_bounds; unfold MIN_LOD_LEVELS, MAX_LOD_LEVELS; lia).
    split; [exact Hc|].
    split; [intros H; subst c; unfold Clamp, MIN_LOD_LEVELS, MAX_LOD_LEVELS in *;
            destruct (levels <? 1) eqn:E; lia|].
    split; [intros H; subst c; unfold Clamp, MIN_LOD_LEVELS, MAX_LOD_LEVELS in *;
            destruct (levels <? 1) eqn:E1; [lia|];
            destruct (levels >? 4) eqn:E2; lia|].
    split.
    + intros E. unfold SetMaxLodLevels. fold c. rewrite E, Z.eqb_refl. reflexivity.
    + intros N.
      assert (E : SetMaxLodLevels sc t levels
                  = CreateGeometry sc (withMaxLodLevels t c)).
      { unfold SetMaxLodLevels. fold c.
        destruct (c =? maxLodLevels_ t) eqn:Q; [apply Z.eqb_eq in Q; contradiction|].
        reflexivity. }
      split; [exact E|]. rewrite E. split; [apply CreateGeometry_called_in|].
      destruct (CreateGeometry_keeps_settings sc (withMaxLodLevels t c))
        as [_ [H _]]. exact H.
Qed.

(** The terrain as constructed, attached to a node at the origin. *)
Definition attachedTerrain : Terrain := attach Terrain_new (plainNode []).

Lemma configuration_requests_witness :
  SetPatchSize (fun _ => None) attachedTerrain 48 = (attachedTerrain, []) /\
  SetMaxLodLevels (fun _ => None) attachedTerrain 9 = (attachedTerrain, []) /\
  In CreateGeometry_called (snd (SetMaxLodLevels (fun _ => None) attachedTerrain 0)).
Proof.
  destruct (configuration_requests (fun _ => None) attachedTerrain) as [H1 H2].
  split.
  - apply H1. intros [_ [k [Hk E]]].
    assert (K : k < 6) by (apply (Z.pow_lt_mono_r_iff 2); lia).
    assert (K' : k = 0 \/ k = 1 \/ k = 2 \/ k = 3 \/ k = 4 \/ k = 5) by lia.
    destruct K' as [K'|[K'|[K'|[K'|[K'|K']]]]]; subst k; discriminate E.
  - split.
    + apply (H2 9). reflexivity.
    + apply (H2 0). discriminate.
Defined.

(** C6 (as stated) fails: on the terrain as constructed the maximum is
    already 4, so the out-of-range request 9 is clamped to the current
    value and nothing is regenerated. *)
Lemma clamped_levels_without_regeneration :
  9 > MAX_LOD_LEVELS /\
  Clamp 9 MIN_LOD_LEVELS MAX_LOD_LEVELS = maxLodLevels_ attachedTerrain /\
  SetMaxLodLevels (fun _ => None) attachedTerrain 9 = (attachedTerrain, []) /\
  ~ In CreateGeometry_called
       (snd (SetMaxLodLevels (fun _ => None) attachedTerrain 9)).
Proof.
  split; [reflexivity|]. split; [reflexivity|]. split; [reflexivity|].
  simpl. intros [].
Qed.

(* ================================================================== *)
(** ** Height reads stay inside the sample array *)

Lemma heightIndex_range (t : Terrain) (x z : Z) :
  1 <= ix_ (numVertices_ t) -> 1 <= iy_ (numVertices_ t) ->
  0 <= heightIndex t x z < ix_ (numVertices_ t) * iy_ (numVertices_ t).
Proof.
  intros Hx Hz. unfold heightIndex.
  pose proof (Clamp_bounds x 0 (ix_ (numVertices_ t) - 1) ltac:(lia)).
  pose proof (Clamp_bounds z 0 (iy_ (numVertices_ t) - 1) ltac:(lia)).
  nia.
Qed.

Lemma heightIndex_withHeightData (t : Terrain) (d : option (list f32)) (x z : Z) :
  heightIndex (withHeightData t d) x z = heightIndex t x z.
Proof. reflexivity. Qed.

(** Two sample arrays that agree on the valid indices. *)
Definition agreeInRange (t : Terrain) (d d' : list f32) : Prop :=
  forall k, 0 <= k < ix_ (numVertices_ t) * iy_ (numVertices_ t) ->
            readHeight d' k = readHeight d k.

Lemma GetRawHeight_agree (t : Terrain) (d d' : list f32) (x z : Z) :
  heightData_ t = Some d ->
  1 <= ix_ (numVertices_ t) -> 1 <= iy_ (numVertices_ t) ->
  agreeInRange t d d' ->
  GetRawHeight (withHeightData t (Some d')) x z = GetRawHeight t x z.
Proof.
  intros Hd Hx Hz Ha. unfold GetRawHeight. rewrite Hd. simpl.
  rewrite heightIndex_withHeightData. apply Ha. apply heightIndex_range; assumption.
Qed.

(** C9.  Out-of-range coordinates are clamped to the nearest valid one,
    never wrapped: [GetRawHeight] (and [GetSourceHeight]) return the sample
    at (clamp(x,0,width-1), clamp(z,0,height-1)), the row-major index read
    lies in [0, width*height), and [GetHeight] at any world position
    depends on the array only through such in-range samples. *)
Theorem height_reads_clamped (t : Terrain) (d : list f32) :
  heightData_ t = Some d ->
  1 <= ix_ (numVertices_ t) -> 1 <= iy_ (numVertices_ t) ->
  (forall x z : Z,
     let w := ix_ (numVertices_ t) in
     let h := iy_ (numVertices_ t) in
     let xc := Z.max 0 (Z.min x (w - 1)) in
     let zc := Z.max 0 (Z.min z (h - 1)) in
     heightIndex t x z = zc * w + xc /\
     0 <= zc * w + xc < w * h /\
     GetRawHeight t x z = readHeight d (zc * w + xc) /\
     (forall s, sourceHeightData_ t = Some s ->
                GetSourceHeight t x z = readHeight s (zc * w + xc))) /\
  (forall (d' : list f32) (worldPosition : Vector3),
     agreeInRange t d d' ->
     GetHeight (withHeightData t (Some d')) worldPosition
     = GetHeight t worldPosition).
Proof.
  intros Hd Hx Hz. split.
  - intros x z w h xc zc.
    assert (E : heightIndex t x z = zc * w + xc).
    { unfold heightIndex. fold w h. subst xc zc.
      rewrite !Clamp_spec by lia. reflexivity. }
    split; [exact E|]. split.
    + rewrite <- E. apply heightIndex_range; assumption.
    + split.
      * unfold GetRawHeight. rewrite Hd, E. reflexivity.
      * intros s Hs. unfold GetSourceHeight. rewrite Hs, E. reflexivity.
  - intros d' p Ha. unfold GetHeight. simpl node_.
    destruct (node_ t) as [n|]; [|reflexivity].
    change (localCoords (withHeightData t (Some d')) n p) with (localCoords t n p).
    destruct (localCoords t n p) as [xPos zPos].
    destruct (cornerSamples xPos zPos) as [[[c1 c2] c3] [xFrac zFrac]].
    rewrite !(GetRawHeight_agree t d d') by assumption. reflexivity.
Qed.

(** A 5x5 height image over one 4x4 patch. *)
Definition image5 : Image :=
  mkImage 5 5 1 false
    [ 0;  1;  2;  3;  4;
     10; 11; 12; 13; 14;
     20; 21; 22; 23; 24;
     30; 31; 32; 33; 34;
     40; 41; 42; 43; 44].

Definition terrain5 : Terrain :=
  snd (fst (SetHeightMap (fun _ => None)
              (fst (SetPatchSize (fun _ => None) attachedTerrain 4))
              (Some image5))).

Definition heights5 : list f32 :=
  Eval vm_compute in
    match heightData_ terrain5 with Some d => d | None => [] end.

Lemma height_reads_clamped_witness :
  heightIndex terrain5 (-3) 9 = 20 /\
  GetRawHeight terrain5 (-3) 9 = readHeight heights5 20 /\
  GetRawHeight terrain5 7 (-1) = readHeight heights5 4.
Proof.
  assert (Hd : heightData_ terrain5 = Some heights5) by (vm_compute; reflexivity).
  assert (Hx : 1 <= ix_ (numVertices_ terrain5)) by (vm_compute; discriminate).
  assert (Hz : 1 <= iy_ (numVertices_ terrain5)) by (vm_compute; discriminate).
  destruct (height_reads_clamped terrain5 heights5 Hd Hx Hz) as [H _].
  destruct (H (-3) 9) as [E1 [_ [E2 _]]].
  destruct (H 7 (-1)) as [_ [_ [E3 _]]].
  split; [exact E1|]. split; [exact E2|exact E3].
Defined.

(* ================================================================== *)
(** ** The children of the terrain node *)

Definition findChild (cs : list (IntVector2 * PatchNode)) (name : IntVector2)
  : option PatchNode :=
  match find (fun c => IntVector2_eqb (fst c) name) cs with
  | Some c => Some (snd c)
  | None => None
  end.

Lemma GetChild_withChildren (n : Node) (cs : list (IntVector2 * PatchNode))
      (name : IntVector2) :
  GetChild (withChildren n cs) name = findChild cs name.
Proof. reflexivity. Qed.

Lemma findChild_putChild (cs : list (IntVector2 * PatchNode))
      (k k' : IntVector2) (c : PatchNode) :
  findChild (putChild cs k c) k'
  = if IntVector2_eqb k k' then Some c else findChild cs k'.
Proof.
  unfold findChild. induction cs as [|[k0 c0] cs IH]; simpl.
  - destruct (IntVector2_eqb k k'); reflexivity.
  - destruct (IntVector2_eqb k0 k) eqn:E0; simpl.
    + apply IntVector2_eqb_eq in E0. subst k0.
      destruct (IntVector2_eqb k k'); reflexivity.
    + destruct (IntVector2_eqb k0 k') eqn:E1; simpl.
      * apply IntVector2_eqb_eq in E1. subst k0.
        destruct (IntVector2_eqb k k') eqn:E2; [|reflexivity].
        apply IntVector2_eqb_eq in E2. subst k'.
        rewrite IntVector2_eqb_refl in E0. discriminate.
      * exact IH.
Qed.

Definition refName (r : PatchRef) : IntVector2 := mkIntVector2 (ref_x r) (ref_z r).

Lemma ownPatch_putOwnPatch (t : Terrain) (r k : PatchRef) (c : PatchNode) :
  node_ t <> None ->
  ownPatch (putOwnPatch t r c) k
  = if IntVector2_eqb (refName r) (refName k) then Some c else ownPatch t k.
Proof.
  unfold ownPatch, putOwnPatch. destruct (node_ t) as [n|]; [|congruence].
  intros _. simpl. rewrite GetChild_withChildren, findChild_putChild. reflexivity.
Qed.

(** The patch [buildPatch] leaves behind a pointer. *)
Definition builtPatch (sc : Scene) (t : Terrain) (dirty : bool) (c : PatchNode)
  : PatchNode :=
  mkPatchNode (position_ c)
    (SetPatchNeighbors sc t
       (if dirty then CalculateLodErrors t (CreatePatchGeometry t (patch_ c))
        else patch_ c)).

Lemma ownPatch_buildPatch (sc : Scene) (t : Terrain) (r k : PatchRef) (d : bool) :
  ownPatch (buildPatch sc t (r, d)) k
  = if IntVector2_eqb (refName r) (refName k)
    then option_map (builtPatch sc t d) (ownPatch t r)
    else ownPatch t k.
Proof.
  unfold buildPatch. destruct (ownPatch t r) as [c|] eqn:E.
  - rewrite ownPatch_putOwnPatch.
    + reflexivity.
    + unfold ownPatch in E. destruct (node_ t); congruence.
  - destruct (IntVector2_eqb (refName r) (refName k)) eqn:Q; [|reflexivity].
    simpl. unfold ownPatch in *. destruct (node_ t) as [n|]; [|reflexivity].
    apply IntVector2_eqb_eq in Q. unfold refName in Q. inversion Q.
    congruence.
Qed.

Definition vertexBufferOf (c : PatchNode) : VertexBuffer :=
  TerrainPatch.vertexBuffer_ (patch_ c).



(** A patch that is not dirty keeps its vertex buffer through the final
    loop. *)
Lemma fold_buildPatch_clean (sc : Scene) (l : list (PatchRef * bool))
      (t : Terrain) (k : PatchRef) :
  (forall r d, In (r, d) l -> refName r = refName k -> d = false) ->
  option_map vertexBufferOf (ownPatch (fold_left (buildPatch sc) l t) k)
  = option_map vertexBufferOf (ownPatch t k).
Proof.
  revert t. induction l as [|[r d] l IH]; intros t H; cbn [fold_left]; [reflexivity|].
  rewrite IH by (intros r' d' Hin; apply H; right; exact Hin).
  rewrite ownPatch_buildPatch.
  destruct (IntVector2_eqb (refName r) (refName k)) eqn:Q; [|reflexivity].
  apply IntVector2_eqb_eq in Q.
  assert (d = false) by (apply (H r d); [left; reflexivity|exact Q]). subst d.
  assert (E : ownPatch t r = ownPatch t k).
  { unfold ownPatch. destruct (node_ t); [|reflexivity].
    unfold refName in Q. inversion Q. congruence. }
  rewrite E. destruct (ownPatch t k); reflexivity.
Qed.











(** ** The patch creation loop *)

Lemma findChild_createPatchNode (o s : Vector2) (cs : list (IntVector2 * PatchNode))
      (xz : Z * Z) (k : IntVector2) :
  IntVector2_eqb (mkIntVector2 (fst xz) (snd xz)) k = false ->
  findChild (createPatchNode o s cs xz) k = findChild cs k.
Proof.
  intros H. unfold createPatchNode. destruct xz as [x z].
  rewrite findChild_putChild. simpl in H. rewrite H. reflexivity.
Qed.

Lemma findChild_createPatchNode_same (o s : Vector2)
      (cs : list (IntVector2 * PatchNode)) (x z : Z) :
  exists c, findChild (createPatchNode o s cs (x, z)) (mkIntVector2 x z) = Some c
            /\ (forall c0, findChild cs (mkIntVector2 x z) = Some c0 ->
                           patch_ c = patch_ c0).
Proof.
  unfold createPatchNode. rewrite findChild_putChild, IntVector2_eqb_refl.
  eexists. split; [reflexivity|].
  intros c0 H. unfold findChild in H. cbn [patch_].
  destruct (find _ cs) as [c1|]; [|discriminate].
  inversion H. reflexivity.
Qed.

(** A child that exists keeps its patch component through the loop. *)
Lemma fold_createPatchNode_keeps (o s : Vector2) (l : list (Z * Z))
      (cs : list (IntVector2 * PatchNode)) (k : IntVector2) (c : PatchNode) :
  findChild cs k = Some c ->
  exists c', findChild (fold_left (createPatchNode o s) l cs) k = Some c'
             /\ patch_ c' = patch_ c.
Proof.
  revert cs c. induction l as [|[x z] l IH]; intros cs c H; cbn [fold_left].
  - exists c. split; [exact H|reflexivity].
  - destruct (IntVector2_eqb (mkIntVector2 x z) k) eqn:Q.
    + apply IntVector2_eqb_eq in Q. subst k.
      destruct (findChild_createPatchNode_same o s cs x z) as [c1 [H1 H2]].
      destruct (IH _ _ H1) as [c' [H3 H4]].
      exists c'. split; [exact H3|]. rewrite H4. apply H2. exact H.
    + apply IH. rewrite findChild_createPatchNode by exact Q. exact H.
Qed.


(** ** What the preparation stage returns *)

Lemma prepareGeometry_layout (t : Terrain) (node : Node) (img : Image) :
  let p := planGeometry t in
  let t2 := fst (prepareGeometry t node img) in
  numPatches_ t2 = plan_numPatches p /\
  numVertices_ t2 = plan_numVertices p /\
  numLodLevels_ t2 = plan_numLodLevels p /\
  patches_ t2 = patchRefs node (plan_numPatches p) /\
  drawRanges_ t2
  = (if plan_updateAll p
     then drawRanges (CreateIndexData (patchSize_ t) (plan_numLodLevels p))
     else drawRanges_ t) /\
  node_ t2
  = Some (withChildren node
            (fold_left (createPatchNode (plan_patchWorldOrigin p)
                                        (plan_patchWorldSize p))
                       (patchCoords (plan_numPatches p))
                       (keptChildren p node))) /\
  snd (prepareGeometry t node img)
  = dirtyPatchesOf (patchSize_ t) p (updateRegionOf t img).
Proof.
  unfold prepareGeometry. cbv zeta. cbn [fst snd].
  destruct (smoothing_ t); destruct (plan_updateAll (planGeometry t));
    repeat split; reflexivity.
Qed.

(* ================================================================== *)
(** ** Number of draw ranges *)


Lemma combinations_range (n i : Z) : 0 <= combinations n i.
Proof. unfold combinations. destruct (i <? u32 (n - 1)); lia. Qed.







Lemma in_patchCoords (np : IntVector2) (x z : Z) :
  In (x, z) (patchCoords np) <-> (0 <= x < ix_ np /\ 0 <= z < iy_ np).
Proof.
  unfold patchCoords. rewrite in_flat_map. split.
  - intros [z' [Hz Hx]]. apply in_map_iff in Hx. destruct Hx as [x' [E Hx]].
    inversion E; subst. apply in_for_range_1 in Hz. apply in_for_range_1 in Hx. lia.
  - intros [Hx Hz]. exists z. split; [apply in_for_range_1; lia|].
    apply in_map_iff. exists x. split; [reflexivity|apply in_for_range_1; lia].
Qed.

Lemma length_patchCoords (np : IntVector2) :
  0 <= ix_ np -> 0 <= iy_ np ->
  Z.of_nat (length (patchCoords np)) = ix_ np * iy_ np.
Proof.
  intros Hx Hz. unfold patchCoords.
  rewrite (length_flat_map_const _ _ (Z.to_nat (ix_ np))).
  - rewrite length_for_range_1. nia.
  - intros a _. rewrite length_map, length_for_range_1. f_equal. lia.
Qed.


(** The layout members after [CreateGeometry] on an attached terrain with
    a height map. *)
Lemma CreateGeometry_layout (sc : Scene) (t : Terrain) (node : Node) (img : Image) :
  node_ t = Some node -> heightMap_ t = Some img ->
  let p := planGeometry t in
  let t' := fst (CreateGeometry sc t) in
  numPatches_ t' = plan_numPatches p /\
  numVertices_ t' = plan_numVertices p /\
  numLodLevels_ t' = plan_numLodLevels p /\
  patches_ t' = patchRefs node (plan_numPatches p) /\
  drawRanges_ t'
  = (if plan_updateAll p
     then drawRanges (CreateIndexData (patchSize_ t) (plan_numLodLevels p))
     else drawRanges_ t).
Proof.
  intros Hn Hm p t'. subst p t'. unfold CreateGeometry. rewrite Hn, Hm.
  pose proof (prepareGeometry_layout t node img) as L. cbv zeta in L.
  destruct (prepareGeometry t node img) as [t2 dirty]. cbn [fst snd] in *.
  destruct L as [L1 [L2 [L3 [L4 [L5 _]]]]].
  pose proof (fold_buildPatch_config sc (combine (patches_ t2) dirty) t2) as Hc.
  remember (fold_left (buildPatch sc) (combine (patches_ t2) dirty) t2) as t3.
  repeat split.
  - change (numPatches_ t3) with (numPatches_ (configOf t3)). rewrite Hc. exact L1.
  - change (numVertices_ t3) with (numVertices_ (configOf t3)). rewrite Hc. exact L2.
  - change (numLodLevels_ t3) with (numLodLevels_ (configOf t3)). rewrite Hc. exact L3.
  - change (patches_ t3) with (patches_ (configOf t3)). rewrite Hc. exact L4.
  - change (drawRanges_ t3) with (drawRanges_ (configOf t3)). rewrite Hc. exact L5.
Qed.

(* ================================================================== *)
(** ** The 65 x 65 scenario *)






(* ================================================================== *)
(** ** Float arithmetic facts *)

Lemma fadd_comm (a b : f32) : fadd a b = fadd b a.
Proof.
  unfold fadd. destruct a as [sa|sa| |sa ma ea], b as [sb|sb| |sb mb eb];
    try reflexivity; try (destruct sa, sb; reflexivity).
  unfold SFadd. rewrite (Z.min_comm eb ea). f_equal. apply Z.add_comm.
Qed.

Lemma fadd_zero_l (z a : f32) :
  is_zero z = true -> is_zero a = false -> fadd z a = a.
Proof.
  destruct z as [sz|sz| |sz mz ez]; try discriminate. intros _.
  destruct a as [sa|sa| |sa ma ea]; try discriminate; reflexivity.
Qed.

Lemma fadd_zero_r (z a : f32) :
  is_zero z = true -> is_zero a = false -> fadd a z = a.
Proof. intros Hz Ha. rewrite fadd_comm. apply fadd_zero_l; assumption. Qed.

Lemma fadd_zero_zero (z a : f32) :
  is_zero z = true -> is_zero a = true -> is_zero (fadd z a) = true.
Proof.
  destruct z as [sz|sz| |sz mz ez]; try discriminate. intros _.
  destruct a as [sa|sa| |sa ma ea]; try discriminate. intros _.
  destruct sz, sa; reflexivity.
Qed.

Lemma fsub_self_finite (x : f32) :
  is_finite x = true -> fsub x x = S754_zero false.
Proof.
  destruct x as [s|s| |s m e]; try discriminate; intros _.
  - destruct s; reflexivity.
  - unfold fsub, SFsub. rewrite Z.sub_diag. reflexivity.
Qed.

Lemma fsub_self_nonfinite (x : f32) :
  is_finite x = false -> fsub x x = S754_nan.
Proof.
  destruct x as [s|s| |s m e]; try discriminate; intros _; [|reflexivity].
  destruct s; reflexivity.
Qed.

Lemma fsub_one_nonfinite (x : f32) :
  is_finite x = false -> is_finite (fsub one x) = false.
Proof. destruct x as [s|s| |s m e]; try discriminate; intros _; reflexivity. Qed.

Lemma fmul_finite_zero (h : f32) :
  is_finite h = true -> is_zero (fmul h (S754_zero false)) = true.
Proof. destruct h as [s|s| |s m e]; try discriminate; intros _; reflexivity. Qed.

Lemma fmul_nan_r (h : f32) : fmul h S754_nan = S754_nan.
Proof. destruct h; reflexivity. Qed.

Lemma fadd_nan_l (a : f32) : fadd S754_nan a = S754_nan.
Proof. reflexivity. Qed.

(** The same float, or two zeros that differ in sign at most. *)
Definition sameValue (a b : f32) : Prop :=
  a = b \/ (is_zero a = true /\ is_zero b = true).

Lemma zero_sums_commute (z1 z2 a b : f32) :
  is_zero z1 = true -> is_zero z2 = true ->
  sameValue (fadd (fadd z1 a) b) (fadd (fadd z2 b) a).
Proof.
  intros H1 H2.
  destruct (is_zero a) eqn:Ea, (is_zero b) eqn:Eb.
  - right. split; apply fadd_zero_zero; try assumption;
      apply fadd_zero_zero; assumption.
  - left. rewrite (fadd_zero_l (fadd z1 a) b)
      by (try assumption; apply fadd_zero_zero; assumption).
    rewrite (fadd_zero_l z2 b) by assumption.
    rewrite (fadd_zero_r a b); [reflexivity|assumption|assumption].
  - left. rewrite (fadd_zero_l z1 a) by assumption.
    rewrite (fadd_zero_r b a) by assumption.
    rewrite (fadd_zero_l (fadd z2 b) a)
      by (try assumption; apply fadd_zero_zero; assumption).
    reflexivity.
  - left. rewrite (fadd_zero_l z1 a), (fadd_zero_l z2 b) by assumption.
    apply fadd_comm.
Qed.

(* ================================================================== *)
(** ** The two triangles along the diagonal *)

(** The lower-triangle branch of [GetHeight] on a cell with corners
    h00, h10, h01, and the upper-triangle branch with corners h11, h01,
    h10 and the flipped fractions. *)
Definition lowerBranch (h00 h10 h01 xFrac zFrac : f32) : f32 :=
  interpolate h00 h10 h01 xFrac zFrac.
Definition upperBranch (h11 h01 h10 xFrac zFrac : f32) : f32 :=
  interpolate h11 h01 h10 (fsub one xFrac) (fsub one zFrac).

(** C4 (as the code has it).  When the fractions add up to one without
    rounding, that is [1 - xFrac] is exactly [zFrac] and [1 - zFrac] is
    exactly [xFrac], and the corners h00 and h11 are finite, the two
    branches give the same float (up to the sign of a zero). *)
Theorem branches_agree_on_exact_diagonal (h00 h10 h01 h11 xFrac zFrac : f32) :
  is_finite h00 = true -> is_finite h11 = true ->
  fsub one xFrac = zFrac -> fsub one zFrac = xFrac ->
  sameValue (lowerBranch h00 h10 h01 xFrac zFrac)
            (upperBranch h11 h01 h10 xFrac zFrac).
Proof.
  intros F00 F11 Hx Hz. unfold lowerBranch, upperBranch, interpolate.
  rewrite Hx, Hz.
  destruct (is_finite xFrac) eqn:Fx.
  - assert (Fz : is_finite zFrac = true).
    { destruct (is_finite zFrac) eqn:Fz; [reflexivity|].
      apply fsub_one_nonfinite in Fz. rewrite Hz in Fz. congruence. }
    rewrite (fsub_self_finite xFrac Fx), (fsub_self_finite zFrac Fz).
    apply zero_sums_commute; apply fmul_finite_zero; assumption.
  - assert (Fz : is_finite zFrac = false).
    { rewrite <- Hx. apply fsub_one_nonfinite. exact Fx. }
    rewrite (fsub_self_nonfinite xFrac Fx), (fsub_self_nonfinite zFrac Fz).
    rewrite !fmul_nan_r, !fadd_nan_l. left. reflexivity.
Qed.

Lemma branches_agree_on_exact_diagonal_witness :
  sameValue (lowerBranch (of_int 3) (of_int 100) (of_int 7) (lit 1 (-2)) (lit 3 (-2)))
            (upperBranch (of_int 5) (of_int 7) (of_int 100) (lit 1 (-2)) (lit 3 (-2))).
Proof.
  apply branches_agree_on_exact_diagonal; reflexivity.
Defined.

(** In exact arithmetic 0.25 + 0.75 is on the diagonal and both branches
    give 0.25 * 100 + 0.75 * 7 = 30.25. *)
Example exact_diagonal_value :
  lowerBranch (of_int 3) (of_int 100) (of_int 7) (lit 1 (-2)) (lit 3 (-2))
  = lit 121 (-2).
Proof. vm_compute. reflexivity. Qed.

(** The floats 0.1f and 0.9f. *)
Definition tenth : f32 := fdiv (of_int 1) (of_int 10).
Definition nineTenths : f32 := fdiv (of_int 9) (of_int 10).

(** C4 (as stated) fails.  In float arithmetic 0.1f + 0.9f is 1.0f, so
    the point lies on the diagonal and [GetHeight] takes the upper
    branch there; with h10 = 100 and the other corners 0 the lower branch
    gives 10.0 and the upper branch 10.000002. *)
Lemma branches_differ_on_rounded_diagonal :
  fadd tenth nineTenths = one /\
  fge (fadd tenth nineTenths) one = true /\
  Fract tenth = tenth /\ Fract nineTenths = nineTenths /\
  lowerBranch zero (of_int 100) zero tenth nineTenths = of_int 10 /\
  upperBranch zero zero (of_int 100) tenth nineTenths = lit 10485762 (-20) /\
  feq (lowerBranch zero (of_int 100) zero tenth nineTenths)
      (upperBranch zero zero (of_int 100) tenth nineTenths) = false /\
  ~ sameValue (lowerBranch zero (of_int 100) zero tenth nineTenths)
              (upperBranch zero zero (of_int 100) tenth nineTenths).
Proof.
  repeat split; try (vm_compute; reflexivity).
  intros [E|[E _]]; vm_compute in E; discriminate E.
Qed.

(** At (0.1f, 0.9f) the corner choice of [GetHeight] is the upper
    triangle, with the flipped fractions. *)
Example cornerSamples_on_rounded_diagonal :
  cornerSamples tenth nineTenths
  = (((1, 1), (0, 1), (1, 0)), (fsub one tenth, fsub one nineTenths)).
Proof. vm_compute. reflexivity. Qed.

(* ================================================================== *)
(** ** The order of floats *)











(* ================================================================== *)
(** ** LOD errors of a patch *)



(** The least error a level may have: [0.25 * (spacing.x + spacing.z) * 2^i]. *)
Definition errorFloor (t : Terrain) (i : Z) : f32 :=
  fmul (fmul (lit 1 (-2)) (fadd (x_ (spacing_ t)) (z_ (spacing_ t))))
       (of_int (shl1 i)).






Lemma nth_for_range_0 {A} (f : Z -> A) (n i : Z) (d : A) :
  0 <= i < n ->
  nth (Z.to_nat i) (map f (for_range 0 n 1)) d = f i.
Proof.
  intros H. unfold for_range. rewrite map_map.
  replace (Z.to_nat ((n - 0 + 1 - 1) / 1)) with (Z.to_nat n)
    by (rewrite Z.div_1_r; f_equal; lia).
  rewrite (nth_indep _ d (f (0 + 1 * Z.of_nat 0)))
    by (rewrite length_map, length_seq; lia).
  rewrite (map_nth (fun k => f (0 + 1 * Z.of_nat k)) (seq 0 (Z.to_nat n)) 0%nat).
  rewrite seq_nth by lia. f_equal. lia.
Qed.


(** A 9x9 height image over one 8x8 patch, two LOD levels. *)
Definition image9 : Image :=
  mkImage 9 9 1 false
          (map (fun k => Z.of_nat k * Z.of_nat k mod 23) (seq 0 (9 * 9))).

Definition terrain9 : Terrain :=
  snd (fst (SetHeightMap (fun _ => None)
              (fst (SetPatchSize (fun _ => None) attachedTerrain 8))
              (Some image9))).

Definition patch9 : TerrainPatch.t := TerrainPatch.create (mkIntVector2 0 0).


(** The two errors of that patch: 0.0 and 2.375 (the floor is 1.0). *)
Example lodErrors_terrain9 :
  TerrainPatch.lodErrors_ (CalculateLodErrors terrain9 patch9)
  = [zero; lit 19 (-3)]
  /\ errorFloor terrain9 1 = of_int 1.
Proof. vm_compute. split; reflexivity. Qed.

(* ================================================================== *)
(** ** Vector updates and row-major indexing *)

Lemma length_setNth {A} (k : nat) (x : A) (l : list A) :
  length (setNth k x l) = length l.
Proof.
  revert k. induction l as [|a l IH]; intros k; destruct k; simpl;
    try reflexivity.
  rewrite IH. reflexivity.
Qed.

Lemma nth_setNth {A} (k j : nat) (x d : A) (l : list A) :
  nth j (setNth k x l) d
  = if (j =? k)%nat && (k <? length l)%nat then x else nth j l d.
Proof.
  revert k j. induction l as [|a l IH]; intros k j.
  - destruct k; simpl; rewrite andb_false_r; reflexivity.
  - destruct k as [|k], j as [|j]; simpl; try reflexivity.
    rewrite IH. reflexivity.
Qed.

Lemma nth_fold_setNth (ks : list nat) (l : list bool) (j : nat) :
  (j < length l)%nat ->
  nth j (fold_left (fun d k => setNth k true d) ks l) false
  = nth j l false || existsb (Nat.eqb j) ks.
Proof.
  revert l. induction ks as [|k ks IH]; intros l Hj; cbn [fold_left existsb].
  - rewrite orb_false_r. reflexivity.
  - rewrite IH by (rewrite length_setNth; exact Hj).
    rewrite nth_setNth.
    destruct (j =? k)%nat eqn:E.
    + apply Nat.eqb_eq in E. subst k.
      assert (L : (j <? length l)%nat = true) by (apply Nat.ltb_lt; exact Hj).
      rewrite L. simpl. rewrite orb_true_r. reflexivity.
    + simpl. reflexivity.
Qed.

Lemma fold_left_flat_map {A B C} (f : A -> C -> A) (g : B -> list C)
      (l : list B) (a : A) :
  fold_left f (flat_map g l) a = fold_left (fun a y => fold_left f (g y) a) l a.
Proof.
  revert a. induction l as [|y l IH]; intros a; [reflexivity|].
  cbn [flat_map fold_left]. rewrite fold_left_app. apply IH.
Qed.

Lemma fold_left_map {A B C} (f : A -> C -> A) (g : B -> C) (l : list B) (a : A) :
  fold_left f (map g l) a = fold_left (fun a y => f a (g y)) l a.
Proof.
  revert a. induction l as [|y l IH]; intros a; [reflexivity|]. apply IH.
Qed.

Lemma fold_left_pointwise {A B} (f g : A -> B -> A) (l : list B) (a : A) :
  (forall a b, f a b = g a b) -> fold_left f l a = fold_left g l a.
Proof.
  intros H. revert a. induction l as [|b l IH]; intros a; [reflexivity|].
  cbn [fold_left]. rewrite H. apply IH.
Qed.

(** [markDirty] sets the flags of the row-major indices of the range. *)
Lemma markDirty_flat (numPatches : IntVector2) (r : IntRect) (d : list bool) :
  markDirty numPatches r d
  = fold_left (fun d k => setNth k true d)
      (flat_map (fun y => map (fun x => Z.to_nat (y * ix_ numPatches + x))
                              (for_incl (left_ r) (right_ r)))
                (for_incl (top_ r) (bottom_ r)))
      d.
Proof.
  unfold markDirty. rewrite fold_left_flat_map.
  apply fold_left_pointwise. intros d' y. rewrite fold_left_map. reflexivity.
Qed.

Lemma markDirty_spec (numPatches : IntVector2) (r : IntRect) (d : list bool)
      (px pz : Z) :
  0 <= left_ r -> right_ r < ix_ numPatches -> 0 <= top_ r ->
  0 <= px < ix_ numPatches -> 0 <= pz ->
  (Z.to_nat (pz * ix_ numPatches + px) < length d)%nat ->
  nth (Z.to_nat (pz * ix_ numPatches + px)) (markDirty numPatches r d) false
  = nth (Z.to_nat (pz * ix_ numPatches + px)) d false
    || ((left_ r <=? px) && (px <=? right_ r) && (top_ r <=? pz) && (pz <=? bottom_ r)).
Proof.
  intros Hl Hr Ht Hpx Hpz Hlen.
  rewrite markDirty_flat, nth_fold_setNth by exact Hlen.
  f_equal.
  destruct ((left_ r <=? px) && (px <=? right_ r) && (top_ r <=? pz) && (pz <=? bottom_ r))
    eqn:E.
  - apply existsb_exists. exists (Z.to_nat (pz * ix_ numPatches + px)).
    split; [|apply Nat.eqb_refl].
    rewrite !andb_true_iff in E. destruct E as [[[E1 E2] E3] E4].
    apply in_flat_map. exists pz. split; [apply in_for_incl; lia|].
    apply in_map_iff. exists px. split; [reflexivity|apply in_for_incl; lia].
  - apply not_true_is_false. intros H. apply existsb_exists in H.
    destruct H as [k [Hin Hk]]. apply Nat.eqb_eq in Hk. subst k.
    apply in_flat_map in Hin. destruct Hin as [y [Hy Hin]].
    apply in_map_iff in Hin. destruct Hin as [x [Ex Hx]].
    apply in_for_incl in Hy. apply in_for_incl in Hx.
    assert (Exy : y * ix_ numPatches + x = pz * ix_ numPatches + px) by nia.
    assert (y = pz) by nia. subst y. assert (x = px) by lia. subst x.
    assert ((left_ r <=? px) && (px <=? right_ r) && (top_ r <=? pz) && (pz <=? bottom_ r) = true).
    { rewrite !andb_true_iff. repeat split; lia. }
    congruence.
Qed.

(* ================================================================== *)
(** ** The update region *)

Definition noRegion : IntRect := mkIntRect (-1) (-1) (-1) (-1).

(** The rectangle contains every point of [S] and touches a point of [S]
    on each of its four sides: the smallest rectangle around [S]. *)
Definition smallestAround (S : list (Z * Z)) (r : IntRect) : Prop :=
  (forall p, In p S -> left_ r <= fst p <= right_ r /\ top_ r <= snd p <= bottom_ r) /\
  (exists p, In p S /\ fst p = left_ r) /\
  (exists p, In p S /\ fst p = right_ r) /\
  (exists p, In p S /\ snd p = top_ r) /\
  (exists p, In p S /\ snd p = bottom_ r).

Lemma smallestAround_single (x z : Z) :
  smallestAround [(x, z)] (mkIntRect x z x z).
Proof.
  unfold smallestAround. cbn [left_ right_ top_ bottom_].
  split.
  - intros p [E|[]]. subst p. simpl. lia.
  - repeat split; exists (x, z); (split; [left; reflexivity|reflexivity]).
Qed.

Lemma smallestAround_grow (S : list (Z * Z)) (r : IntRect) (x z : Z) :
  0 <= left_ r -> smallestAround S r ->
  smallestAround (S ++ [(x, z)]) (GrowUpdateRegion r x z)
  /\ 0 <= left_ (GrowUpdateRegion r x z) \/ x < 0.
Proof.
  intros Hl [C [[pl [Il El]] [[pr [Ir Er]] [[pt [It Et]] [pb [Ib Eb]]]]]].
  destruct (Z_lt_le_dec x 0) as [Hx|Hx]; [right; exact Hx|left].
  unfold GrowUpdateRegion.
  destruct (left_ r <? 0) eqn:E; [lia|]. cbn [left_ right_ top_ bottom_].
  split; [|destruct (x <? left_ r) eqn:Q; lia].
  unfold smallestAround. cbn [left_ right_ top_ bottom_].
  split; [|split; [|split; [|split]]].
  - intros p Hin. apply in_app_or in Hin. destruct Hin as [Hin|[Ep|[]]].
    + specialize (C p Hin).
      destruct (x <? left_ r) eqn:Q1, (x >? right_ r) eqn:Q2,
               (z <? top_ r) eqn:Q3, (z >? bottom_ r) eqn:Q4; lia.
    + subst p. cbn [fst snd].
      destruct (x <? left_ r) eqn:Q1, (x >? right_ r) eqn:Q2,
               (z <? top_ r) eqn:Q3, (z >? bottom_ r) eqn:Q4; lia.
  - destruct (x <? left_ r) eqn:Q.
    + exists (x, z). split; [apply in_or_app; right; left; reflexivity|reflexivity].
    + exists pl. split; [apply in_or_app; left; exact Il|exact El].
  - destruct (x >? right_ r) eqn:Q.
    + exists (x, z). split; [apply in_or_app; right; left; reflexivity|reflexivity].
    + exists pr. split; [apply in_or_app; left; exact Ir|exact Er].
  - destruct (z <? top_ r) eqn:Q.
    + exists (x, z). split; [apply in_or_app; right; left; reflexivity|reflexivity].
    + exists pt. split; [apply in_or_app; left; exact It|exact Et].
  - destruct (z >? bottom_ r) eqn:Q.
    + exists (x, z). split; [apply in_or_app; right; left; reflexivity|reflexivity].
    + exists pb. split; [apply in_or_app; left; exact Ib|exact Eb].
Qed.

(** The region a grow loop is in: nothing seen yet, or the smallest
    rectangle around what it has seen. *)
Definition regionOf (S : list (Z * Z)) (r : IntRect) : Prop :=
  (S = [] /\ r = noRegion) \/ (S <> [] /\ 0 <= left_ r /\ smallestAround S r).

Lemma fold_grow_region (P : Z * Z -> bool) (l S : list (Z * Z)) (r : IntRect) :
  (forall p, In p l -> 0 <= fst p) ->
  regionOf S r ->
  regionOf (S ++ filter P l)
           (fold_left (fun r p => if P p then GrowUpdateRegion r (fst p) (snd p) else r)
                      l r).
Proof.
  revert S r. induction l as [|p l IH]; intros S r Hpos HS; cbn [fold_left filter].
  - rewrite app_nil_r. exact HS.
  - assert (Hp : 0 <= fst p) by (apply Hpos; left; reflexivity).
    assert (Hl : forall q, In q l -> 0 <= fst q) by (intros q Hq; apply Hpos; right; exact Hq).
    destruct (P p) eqn:E; [|apply IH; assumption].
    replace (S ++ p :: filter P l) with ((S ++ [p]) ++ filter P l)
      by (rewrite <- app_assoc; reflexivity).
    apply IH; [exact Hl|]. right.
    split; [destruct S; discriminate|].
    destruct HS as [[-> ->]|[_ [H0 HB]]].
    + destruct p as [x z]. cbn [fst snd] in *. unfold GrowUpdateRegion, noRegion.
      cbn [left_ app]. split; [exact Hp|apply smallestAround_single].
    + destruct p as [x z]. cbn [fst snd] in *.
      destruct (smallestAround_grow S r x z H0 HB) as [[A B]|C]; [|lia].
      split; assumption.
Qed.

(** Whether the copy loop finds the sample changed: [*dest != newHeight]. *)
Definition changedSample (dest : list f32) (numVertices : IntVector2)
           (height : Z * Z -> f32) (xz : Z * Z) : bool :=
  fne (readHeight dest (snd xz * ix_ numVertices + fst xz)) (height xz).

Lemma in_sampleCoords (nv : IntVector2) (x z : Z) :
  In (x, z) (sampleCoords nv) <-> (0 <= x < ix_ nv /\ 0 <= z < iy_ nv).
Proof. apply (in_patchCoords nv x z). Qed.

(** On a partial update the region the copy loop returns is the smallest
    rectangle around the changed samples, or (-1,-1,-1,-1) when none
    changed. *)
Lemma copyHeightData_region (dest : list f32) (nv : IntVector2)
      (height : Z * Z -> f32) :
  regionOf (filter (changedSample dest nv height) (sampleCoords nv))
           (snd (copyHeightData false dest nv height)).
Proof.
  unfold copyHeightData. cbn [snd].
  rewrite (fold_left_pointwise _
             (fun r p => if changedSample dest nv height p
                         then GrowUpdateRegion r (fst p) (snd p) else r))
    by reflexivity.
  apply (fold_grow_region _ _ []).
  - intros [x z] Hin. apply in_sampleCoords in Hin. simpl. lia.
  - left. split; reflexivity.
Qed.

Lemma regionOf_right_bottom (S : list (Z * Z)) (r : IntRect) :
  (forall p, In p S -> 0 <= snd p) ->
  regionOf S r ->
  -1 <= left_ r <= right_ r /\ -1 <= top_ r <= bottom_ r.
Proof.
  intros Hz [[_ ->]|[_ [H0 [C [[pl [Il El]] [_ [[pt [It Et]] _]]]]]]].
  - simpl. lia.
  - pose proof (C pl Il). pose proof (C pt It). pose proof (Hz pt It). lia.
Qed.

(** With exactly one changed sample the region is that sample. *)
Lemma regionOf_single (S : list (Z * Z)) (r : IntRect) (x z : Z) :
  In (x, z) S -> (forall p, In p S -> p = (x, z)) ->
  regionOf S r -> r = mkIntRect x z x z.
Proof.
  intros Hin Hall [[E _]|[_ [_ [_ [[pl [Il El]] [[pr [Ir Er]] [[pt [It Et]] [pb [Ib Eb]]]]]]]]].
  - rewrite E in Hin. destruct Hin.
  - rewrite (Hall _ Il) in El. rewrite (Hall _ Ir) in Er.
    rewrite (Hall _ It) in Et. rewrite (Hall _ Ib) in Eb.
    destruct r as [l t0 r0 b]. cbn [fst snd left_ right_ top_ bottom_] in *.
    congruence.
Qed.

(* ================================================================== *)
(** ** Which patches a region makes dirty *)

Lemma lodLevelsLoop_bounds (fuel : nat) (lodSize n m : Z) :
  n <= m -> m < 2 ^ 32 -> 0 <= n ->
  n <= lodLevelsLoop fuel lodSize n m <= m.
Proof.
  revert lodSize n. induction fuel as [|fuel IH]; intros lodSize n H1 H2 H3;
    cbn [lodLevelsLoop]; [lia|].
  destruct ((lodSize >? MIN_PATCH_SIZE) && (n <? m)) eqn:E; [|lia].
  apply andb_true_iff in E. destruct E as [_ E].
  assert (U : u32 (n + 1) = n + 1) by (unfold u32; apply Z.mod_small; lia).
  rewrite U. specialize (IH (Z.shiftr lodSize 1) (n + 1)). lia.
Qed.

Lemma determineLodLevels_bounds (ps m : Z) :
  MIN_LOD_LEVELS <= m <= MAX_LOD_LEVELS ->
  MIN_LOD_LEVELS <= determineLodLevels ps m <= MAX_LOD_LEVELS.
Proof.
  unfold MIN_LOD_LEVELS, MAX_LOD_LEVELS, determineLodLevels. intros H.
  pose proof (lodLevelsLoop_bounds 32 (u32 ps) 1 m). lia.
Qed.

(** The coarsest LOD step [1u << (numLodLevels - 1)]. *)
Lemma coarsest_step (n : Z) :
  MIN_LOD_LEVELS <= n <= MAX_LOD_LEVELS ->
  s32 (shl1 (u32 (n - 1))) = 2 ^ (n - 1).
Proof.
  unfold MIN_LOD_LEVELS, MAX_LOD_LEVELS. intros H.
  assert (K : n = 1 \/ n = 2 \/ n = 3 \/ n = 4) by lia.
  destruct K as [K|[K|[K|K]]]; subst n; reflexivity.
Qed.

Lemma expandRegion_eq (n : Z) (r : IntRect) :
  MIN_LOD_LEVELS <= n <= MAX_LOD_LEVELS ->
  expandRegion n r
  = mkIntRect (left_ r - 2 ^ (n - 1)) (top_ r - 2 ^ (n - 1))
              (right_ r + (2 ^ (n - 1) + 1)) (bottom_ r + (2 ^ (n - 1) + 1)).
Proof. intros H. unfold expandRegion. rewrite coarsest_step by exact H. reflexivity. Qed.

(** The cell of patch column [px]: the samples [px*ps .. px*ps + ps - 1].
    It meets the interval [lo, hi] of the region. *)
Definition cellMeets (ps px lo hi : Z) : Prop :=
  lo <= px * ps + ps - 1 /\ px * ps <= hi.

Lemma cdiv_lower (a ps px : Z) :
  0 < ps -> 0 <= px -> (Max (cdiv a ps) 0 <= px <-> a <= px * ps + ps - 1).
Proof.
  intros Hps Hpx. unfold Max, cdiv.
  destruct (Z_lt_le_dec a 0) as [Ha|Ha].
  - assert (Z.quot a ps <= 0).
    { rewrite <- (Z.opp_involutive a), Z.quot_opp_l by lia.
      assert (0 <= Z.quot (- a) ps) by (apply Z.quot_pos; lia). lia. }
    destruct (Z.quot a ps >? 0) eqn:E; [lia|]. nia.
  - rewrite Z.quot_div_nonneg by lia.
    pose proof (Z.mul_div_le a ps Hps). pose proof (Z.mul_succ_div_gt a ps Hps).
    destruct (a / ps >? 0) eqn:E; nia.
Qed.

Lemma cdiv_upper (a ps px n : Z) :
  0 < ps -> 0 <= a -> px <= n - 1 ->
  (px <= Min (cdiv a ps) (n - 1) <-> px * ps <= a).
Proof.
  intros Hps Ha Hpx. unfold Min, cdiv. rewrite Z.quot_div_nonneg by lia.
  pose proof (Z.mul_div_le a ps Hps). pose proof (Z.mul_succ_div_gt a ps Hps).
  destruct (a / ps <? n - 1) eqn:E; nia.
Qed.

Lemma dirtyRange_bounds (ps : Z) (np : IntVector2) (r : IntRect) :
  0 <= left_ (dirtyRange ps np r) /\ right_ (dirtyRange ps np r) < ix_ np /\
  0 <= top_ (dirtyRange ps np r) /\ bottom_ (dirtyRange ps np r) < iy_ np.
Proof.
  unfold dirtyRange, Max, Min. cbn [left_ right_ top_ bottom_].
  destruct (cdiv (left_ r) ps >? 0) eqn:E1, (cdiv (right_ r) ps <? ix_ np - 1) eqn:E2,
           (cdiv (top_ r) ps >? 0) eqn:E3, (cdiv (bottom_ r) ps <? iy_ np - 1) eqn:E4;
    lia.
Qed.

(** The dirty flag of a patch after a partial update. *)
Lemma dirtyPatchesOf_partial (ps : Z) (p : Plan) (region : IntRect) (px pz : Z) :
  plan_updateAll p = false ->
  0 < ps ->
  0 <= px < ix_ (plan_numPatches p) -> 0 <= pz < iy_ (plan_numPatches p) ->
  ix_ (plan_numPatches p) * iy_ (plan_numPatches p) < 2 ^ 32 ->
  MIN_LOD_LEVELS <= plan_numLodLevels p <= MAX_LOD_LEVELS ->
  -1 <= right_ region -> -1 <= bottom_ region ->
  let e := expandRegion (plan_numLodLevels p) region in
  (nth (Z.to_nat (pz * ix_ (plan_numPatches p) + px))
       (dirtyPatchesOf ps p region) false = true
   <-> cellMeets ps px (left_ e) (right_ e) /\ cellMeets ps pz (top_ e) (bottom_ e)).
Proof.
  intros Hall Hps Hpx Hpz Hlt Hn Hr Hb e.
  unfold dirtyPatchesOf. rewrite Hall.
  destruct (dirtyRange_bounds ps (plan_numPatches p) e) as [B1 [B2 [B3 B4]]].
  rewrite markDirty_spec; try assumption; try lia.
  2:{ rewrite repeat_length. unfold u32. rewrite Z.mod_small by nia. nia. }
  rewrite nth_repeat. cbn [orb].
  assert (He : e = mkIntRect (left_ region - 2 ^ (plan_numLodLevels p - 1))
                             (top_ region - 2 ^ (plan_numLodLevels p - 1))
                             (right_ region + (2 ^ (plan_numLodLevels p - 1) + 1))
                             (bottom_ region + (2 ^ (plan_numLodLevels p - 1) + 1)))
    by (apply expandRegion_eq; exact Hn).
  assert (Hpow : 0 < 2 ^ (plan_numLodLevels p - 1))
    by (apply Z.pow_pos_nonneg; unfold MIN_LOD_LEVELS in Hn; lia).
  assert (R0 : 0 <= right_ e) by (rewrite He; cbn [right_]; lia).
  assert (B0 : 0 <= bottom_ e) by (rewrite He; cbn [bottom_]; lia).
  unfold dirtyRange, cellMeets. cbn [left_ right_ top_ bottom_].
  rewrite !andb_true_iff, !Z.leb_le. fold e.
  rewrite (cdiv_lower (left_ e) ps px), (cdiv_lower (top_ e) ps pz) by lia.
  rewrite (cdiv_upper (right_ e) ps px), (cdiv_upper (bottom_ e) ps pz) by lia.
  tauto.
Qed.

(* ================================================================== *)
(** ** The patch vector and its flags *)

Lemma nth_flat_map_rows {A B} (f : A -> list B) (l : list A) (n i j : nat)
      (d : B) (da : A) :
  (forall a, length (f a) = n) -> (j < n)%nat -> (i < length l)%nat ->
  nth (i * n + j) (flat_map f l) d = nth j (f (nth i l da)) d.
Proof.
  intros Hn Hj. revert i. induction l as [|a l IH]; intros i Hi; [simpl in Hi; lia|].
  cbn [flat_map]. destruct i as [|i].
  - simpl. apply app_nth1. rewrite Hn. exact Hj.
  - rewrite app_nth2 by (rewrite Hn; simpl; lia).
    rewrite Hn. replace (S i * n + j - n)%nat with (i * n + j)%nat by (simpl; lia).
    simpl in Hi. rewrite IH by lia. reflexivity.
Qed.

Lemma nth_map_in_range {A B} (f : A -> B) (l : list A) (i : nat) (d : B) (da : A) :
  (i < length l)%nat -> nth i (map f l) d = f (nth i l da).
Proof.
  intros H. rewrite (nth_indep _ d (f da)) by (rewrite length_map; exact H).
  apply map_nth.
Qed.

Lemma nth_for_range_id (n i d : Z) :
  0 <= i < n -> nth (Z.to_nat i) (for_range 0 n 1) d = i.
Proof.
  intros H. rewrite <- (map_id (for_range 0 n 1)).
  apply (nth_for_range_0 (fun x => x)). exact H.
Qed.

Lemma nth_patchCoords (np : IntVector2) (px pz : Z) (d : Z * Z) :
  0 <= px < ix_ np -> 0 <= pz < iy_ np ->
  nth (Z.to_nat (pz * ix_ np + px)) (patchCoords np) d = (px, pz).
Proof.
  intros Hx Hz. unfold patchCoords.
  replace (Z.to_nat (pz * ix_ np + px))
    with (Z.to_nat pz * Z.to_nat (ix_ np) + Z.to_nat px)%nat by nia.
  rewrite (nth_flat_map_rows _ _ (Z.to_nat (ix_ np)) _ _ d 0).
  - rewrite nth_for_range_id by lia.
    rewrite (nth_map_in_range _ _ _ d 0) by (rewrite length_for_range_1; lia).
    rewrite nth_for_range_id by lia. reflexivity.
  - intros a. rewrite length_map, length_for_range_1. f_equal. lia.
  - lia.
  - rewrite length_for_range_1. lia.
Qed.

Lemma in_combine_nth {A B} (l : list A) (l' : list B) (a : A) (b : B)
      (da : A) (db : B) :
  In (a, b) (combine l l') ->
  exists i, (i < length l)%nat /\ nth i l da = a /\ nth i l' db = b.
Proof.
  revert l'. induction l as [|x l IH]; intros l' Hin; [destruct Hin|].
  destruct l' as [|y l']; [destruct Hin|]. destruct Hin as [E|Hin].
  - inversion E; subst. exists 0%nat. simpl. repeat split. lia.
  - destruct (IH l' Hin) as [i [H1 [H2 H3]]]. exists (S i). simpl.
    repeat split; try assumption. lia.
Qed.

(** Every pair of the final loop is a patch of the grid together with
    the flag at its row-major index. *)
Lemma combine_patch_flag (node : Node) (np : IntVector2) (dirty : list bool)
      (r : PatchRef) (d : bool) :
  0 <= ix_ np -> 0 <= iy_ np ->
  In (r, d) (combine (patchRefs node np) dirty) ->
  exists px pz,
    0 <= px < ix_ np /\ 0 <= pz < iy_ np /\
    r = mkPatchRef (id_ node) px pz /\
    d = nth (Z.to_nat (pz * ix_ np + px)) dirty false.
Proof.
  intros Hx Hz Hin.
  destruct (in_combine_nth _ _ _ _ (mkPatchRef 0 0 0) false Hin) as [i [Hi [Er Ed]]].
  unfold patchRefs in Hi, Er. rewrite length_map in Hi.
  pose proof (length_patchCoords np Hx Hz) as L.
  assert (Hnp : 0 < ix_ np) by nia.
  set (px := Z.of_nat i mod ix_ np). set (pz := Z.of_nat i / ix_ np).
  assert (Hpx : 0 <= px < ix_ np) by (apply Z.mod_pos_bound; lia).
  assert (Hi2 : Z.of_nat i = pz * ix_ np + px).
  { subst px pz. rewrite (Z.div_mod (Z.of_nat i) (ix_ np)) at 1 by lia. lia. }
  assert (Hpz : 0 <= pz < iy_ np).
  { split; [apply Z.div_pos; lia|]. apply Z.div_lt_upper_bound; nia. }
  exists px, pz. split; [exact Hpx|]. split; [exact Hpz|].
  replace i with (Z.to_nat (pz * ix_ np + px)) in Er, Ed by lia.
  rewrite (nth_map_in_range _ _ _ _ (0, 0)) in Er by lia.
  rewrite nth_patchCoords in Er by assumption.
  split; [symmetry; exact Er|symmetry; exact Ed].
Qed.

(** A patch whose flag is clear keeps its vertex buffer through
    [CreateGeometry] on a partial update. *)
Lemma CreateGeometry_clean_patch
      (sc : Scene) (t : Terrain) (node : Node) (img : Image) (px pz : Z)
      (c : PatchNode) :
  node_ t = Some node -> heightMap_ t = Some img ->
  plan_updateAll (planGeometry t) = false ->
  0 <= ix_ (plan_numPatches (planGeometry t)) ->
  0 <= iy_ (plan_numPatches (planGeometry t)) ->
  0 <= px < ix_ (plan_numPatches (planGeometry t)) ->
  0 <= pz < iy_ (plan_numPatches (planGeometry t)) ->
  nth (Z.to_nat (pz * ix_ (plan_numPatches (planGeometry t)) + px))
      (dirtyPatchesOf (patchSize_ t) (planGeometry t) (updateRegionOf t img))
      false = false ->
  GetChild node (mkIntVector2 px pz) = Some c ->
  exists c',
    ownPatch (fst (CreateGeometry sc t)) (mkPatchRef (id_ node) px pz) = Some c'
    /\ vertexBufferOf c' = vertexBufferOf c.
Proof.
  intros Hn Hm Hall Hx Hz Hpx Hpz Hflag Hc.
  unfold CreateGeometry. rewrite Hn, Hm.
  pose proof (prepareGeometry_layout t node img) as L. cbv zeta in L.
  destruct (prepareGeometry t node img) as [t2 dirty]. cbn [fst snd] in *.
  destruct L as [_ [_ [_ [L4 [_ [L6 L7]]]]]].
  assert (H2 : exists c2, ownPatch t2 (mkPatchRef (id_ node) px pz) = Some c2
                          /\ patch_ c2 = patch_ c).
  { unfold ownPatch. rewrite L6, GetChild_withChildren. cbn [ref_x ref_z].
    apply fold_createPatchNode_keeps.
    unfold keptChildren. rewrite Hall. exact Hc. }
  destruct H2 as [c2 [H2 E2]].
  pose proof (fold_buildPatch_clean sc (combine (patches_ t2) dirty) t2
                (mkPatchRef (id_ node) px pz)) as K.
  rewrite H2 in K. cbn [option_map] in K.
  destruct (ownPatch (fold_left (buildPatch sc) (combine (patches_ t2) dirty) t2)
                     (mkPatchRef (id_ node) px pz)) as [c'|] eqn:E'.
  - exists c'. split; [reflexivity|].
    cbn [option_map] in K.
    assert (Some (vertexBufferOf c') = Some (vertexBufferOf c2)).
    { apply K. intros r d Hin Hname.
      rewrite L4 in Hin.
      destruct (combine_patch_flag node _ dirty r d Hx Hz Hin)
        as [qx [qz [Hqx [Hqz [Er Ed]]]]].
      subst r. unfold refName in Hname. cbn [ref_x ref_z] in Hname.
      inversion Hname; subst qx qz. rewrite Ed, L7. exact Hflag. }
    unfold vertexBufferOf in *. rewrite <- E2. congruence.
  - exfalso. cbn [option_map] in K.
    assert (None = Some (vertexBufferOf c2)); [|discriminate].
    apply K. intros r d Hin Hname.
    rewrite L4 in Hin.
    destruct (combine_patch_flag node _ dirty r d Hx Hz Hin)
      as [qx [qz [Hqx [Hqz [Er Ed]]]]].
    subst r. unfold refName in Hname. cbn [ref_x ref_z] in Hname.
    inversion Hname; subst qx qz. rewrite Ed, L7. exact Hflag.
Qed.

(* ================================================================== *)
(** ** Locality of a partial update *)

Lemma plan_numPatches_bounds (t : Terrain) (img : Image) :
  heightMap_ t = Some img ->
  0 <= width_ img < 2 ^ 16 -> 0 <= height_ img < 2 ^ 16 ->
  MIN_PATCH_SIZE <= patchSize_ t ->
  0 <= ix_ (plan_numPatches (planGeometry t)) < 2 ^ 16 /\
  0 <= iy_ (plan_numPatches (planGeometry t)) < 2 ^ 16.
Proof.
  unfold MIN_PATCH_SIZE. intros Hm Hw Hh Hps. unfold planGeometry. rewrite Hm.
  cbn [plan_numPatches ix_ iy_]. unfold cdiv.
  assert (Q : forall a, 0 <= a < 2 ^ 16 -> 0 <= Z.quot (a - 1) (patchSize_ t) < 2 ^ 16).
  { intros a Ha. destruct (Z.eq_dec a 0) as [->|Hne].
    - change (0 - 1) with (- (1)). rewrite Z.quot_opp_l, Z.quot_small by lia. lia.
    - rewrite Z.quot_div_nonneg by lia.
      pose proof (Z.div_pos (a - 1) (patchSize_ t) ltac:(lia) ltac:(lia)).
      assert ((a - 1) / patchSize_ t <= a - 1)
        by (apply Z.div_le_upper_bound; nia). lia. }
  split; apply Q; assumption.
Qed.

Lemma plan_numLodLevels_bounds (t : Terrain) :
  MIN_LOD_LEVELS <= maxLodLevels_ t <= MAX_LOD_LEVELS ->
  MIN_LOD_LEVELS <= plan_numLodLevels (planGeometry t) <= MAX_LOD_LEVELS.
Proof.
  intros H. unfold planGeometry.
  destruct (heightMap_ t); cbn [plan_numLodLevels];
    apply determineLodLevels_bounds; exact H.
Qed.

(** The samples the copy loop of a regeneration finds changed. *)
Definition changedSamples (t : Terrain) (img : Image) : list (Z * Z) :=
  let p := planGeometry t in
  filter (changedSample (copyDest t p) (plan_numVertices p)
                        (newHeight img (plan_numVertices p) (spacing_ t)))
         (sampleCoords (plan_numVertices p)).

(** The dirty flag of the patch at (px, pz). *)
Definition patchDirty (t : Terrain) (img : Image) (px pz : Z) : bool :=
  nth (Z.to_nat (pz * ix_ (plan_numPatches (planGeometry t)) + px))
      (dirtyPatchesOf (patchSize_ t) (planGeometry t) (updateRegionOf t img))
      false.

(** C5 (as the code has it).  On a partial regeneration the update
    region is the smallest rectangle around the changed samples.  It is
    grown by the coarsest LOD step 2^(numLodLevels-1) to the left and
    top, and by one sample more to the right and bottom.  The patches
    marked dirty are exactly those whose cell of samples
    [px*patchSize, (px+1)*patchSize) x [pz*patchSize, (pz+1)*patchSize)
    meets the grown rectangle.  A patch that is not marked keeps its
    vertex buffer.  When a single sample changed, every marked patch has
    that sample within 2^(numLodLevels-1)+1 samples of its extent. *)
Theorem partial_update_locality
        (sc : Scene) (t : Terrain) (node : Node) (img : Image) :
  node_ t = Some node -> heightMap_ t = Some img ->
  MIN_PATCH_SIZE <= patchSize_ t <= MAX_PATCH_SIZE ->
  MIN_LOD_LEVELS <= maxLodLevels_ t <= MAX_LOD_LEVELS ->
  0 <= width_ img < 2 ^ 16 -> 0 <= height_ img < 2 ^ 16 ->
  plan_updateAll (planGeometry t) = false ->
  (let p := planGeometry t in
   let np := plan_numPatches p in
   let ps := patchSize_ t in
   let step := 2 ^ (plan_numLodLevels p - 1) in
   let region := updateRegionOf t img in
   let grown := expandRegion (plan_numLodLevels p) region in
   regionOf (changedSamples t img) region /\
   grown = mkIntRect (left_ region - step) (top_ region - step)
                     (right_ region + (step + 1)) (bottom_ region + (step + 1)) /\
   (forall px pz, 0 <= px < ix_ np -> 0 <= pz < iy_ np ->
      (patchDirty t img px pz = true
       <-> cellMeets ps px (left_ grown) (right_ grown)
           /\ cellMeets ps pz (top_ grown) (bottom_ grown))) /\
   (forall px pz c, 0 <= px < ix_ np -> 0 <= pz < iy_ np ->
      patchDirty t img px pz = false ->
      GetChild node (mkIntVector2 px pz) = Some c ->
      exists c',
        ownPatch (fst (CreateGeometry sc t)) (mkPatchRef (id_ node) px pz) = Some c'
        /\ vertexBufferOf c' = vertexBufferOf c) /\
   (forall sx sz,
      In (sx, sz) (changedSamples t img) ->
      (forall q, In q (changedSamples t img) -> q = (sx, sz)) ->
      region = mkIntRect sx sz sx sz /\
      forall px pz, 0 <= px < ix_ np -> 0 <= pz < iy_ np ->
        patchDirty t img px pz = true ->
        px * ps - (step + 1) <= sx <= px * ps + ps + (step - 1) /\
        pz * ps - (step + 1) <= sz <= pz * ps + ps + (step - 1))).
Proof.
  intros Hn Hm Hps Hmax Hw Hh Hall. cbv zeta.
  destruct (plan_numPatches_bounds t img Hm Hw Hh (proj1 Hps)) as [Bx Bz].
  pose proof (plan_numLodLevels_bounds t Hmax) as Bn.
  assert (HR : regionOf (changedSamples t img) (updateRegionOf t img)).
  { unfold changedSamples, updateRegionOf. cbv zeta. rewrite Hall.
    apply copyHeightData_region. }
  assert (HRB : -1 <= left_ (updateRegionOf t img) <= right_ (updateRegionOf t img) /\
                -1 <= top_ (updateRegionOf t img) <= bottom_ (updateRegionOf t img)).
  { apply (regionOf_right_bottom (changedSamples t img)); [|exact HR].
    intros [x z] Hin. unfold changedSamples in Hin. cbv zeta in Hin.
    apply filter_In in Hin. destruct Hin as [Hin _].
    apply in_sampleCoords in Hin. simpl. lia. }
  assert (HD : forall px pz,
             0 <= px < ix_ (plan_numPatches (planGeometry t)) ->
             0 <= pz < iy_ (plan_numPatches (planGeometry t)) ->
             (patchDirty t img px pz = true
              <-> cellMeets (patchSize_ t) px
                    (left_ (expandRegion (plan_numLodLevels (planGeometry t)) (updateRegionOf t img)))
                    (right_ (expandRegion (plan_numLodLevels (planGeometry t)) (updateRegionOf t img)))
                  /\ cellMeets (patchSize_ t) pz
                    (top_ (expandRegion (plan_numLodLevels (planGeometry t)) (updateRegionOf t img)))
                    (bottom_ (expandRegion (plan_numLodLevels (planGeometry t)) (updateRegionOf t img))))).
  { intros px pz Hpx Hpz. unfold patchDirty.
    apply dirtyPatchesOf_partial; try assumption;
      unfold MIN_PATCH_SIZE in *; try lia. nia. }
  split; [exact HR|].
  split; [apply expandRegion_eq; exact Bn|].
  split; [exact HD|].
  split.
  { intros px pz c Hpx Hpz Hflag Hc.
    apply (CreateGeometry_clean_patch sc t node img px pz c); try assumption; lia. }
  intros sx sz Hin Huniq.
  assert (E : updateRegionOf t img = mkIntRect sx sz sx sz)
    by (apply (regionOf_single (changedSamples t img)); assumption).
  split; [exact E|].
  intros px pz Hpx Hpz Hflag. apply HD in Hflag; [|assumption|assumption].
  rewrite expandRegion_eq in Hflag by exact Bn. rewrite E in Hflag.
  unfold cellMeets in Hflag. cbn [left_ right_ top_ bottom_] in Hflag. lia.
Qed.

(** A 17x17 height image over 2 x 2 patches of size 8 (two LOD levels),
    and the same image with the pixel of sample (10,10) raised by one. *)
Definition pixels17 : list Z :=
  map (fun k => Z.of_nat k * Z.of_nat k mod 23) (seq 0 (17 * 17)).

Definition image17 : Image := mkImage 17 17 1 false pixels17.

Definition image17' : Image :=
  mkImage 17 17 1 false
          (setNth (Z.to_nat (17 * (16 - 10) + 10))
                  (nth (Z.to_nat (17 * (16 - 10) + 10)) pixels17 0 + 1)
                  pixels17).

Definition terrain17 : Terrain :=
  snd (fst (SetHeightMap (fun _ => None)
              (fst (SetPatchSize (fun _ => None) attachedTerrain 8))
              (Some image17))).

(** The terrain at the point where [SetHeightMapInternal] has stored the
    new image and calls [CreateGeometry]. *)
Definition terrain17' : Terrain := withHeightMap terrain17 (Some image17').

Definition node17 : Node :=
  match node_ terrain17 with Some n => n | None => plainNode [] end.

Definition child17 : PatchNode :=
  match GetChild node17 (mkIntVector2 0 0) with
  | Some c => c
  | None => mkPatchNode Vector3_ZERO (TerrainPatch.create (mkIntVector2 0 0))
  end.

Lemma partial_update_locality_witness :
  updateRegionOf terrain17' image17' = mkIntRect 10 10 10 10 /\
  patchDirty terrain17' image17' 1 1 = true /\
  exists c',
    ownPatch (fst (CreateGeometry (fun _ => None) terrain17'))
             (mkPatchRef (id_ node17) 0 0) = Some c'
    /\ vertexBufferOf c' = vertexBufferOf child17.
Proof.
  assert (Hn : node_ terrain17' = Some node17) by (vm_compute; reflexivity).
  assert (Hm : heightMap_ terrain17' = Some image17') by reflexivity.
  assert (Hps : MIN_PATCH_SIZE <= patchSize_ terrain17' <= MAX_PATCH_SIZE)
    by (vm_compute; split; discriminate).
  assert (Hmax : MIN_LOD_LEVELS <= maxLodLevels_ terrain17' <= MAX_LOD_LEVELS)
    by (vm_compute; split; discriminate).
  assert (Hw : 0 <= width_ image17' < 2 ^ 16) by (vm_compute; split; [discriminate|reflexivity]).
  assert (Hh : 0 <= height_ image17' < 2 ^ 16) by (vm_compute; split; [discriminate|reflexivity]).
  assert (Hall : plan_updateAll (planGeometry terrain17') = false)
    by (vm_compute; reflexivity).
  destruct (partial_update_locality (fun _ => None) terrain17' node17 image17'
              Hn Hm Hps Hmax Hw Hh Hall) as [_ [_ [HD [HC HS]]]].
  assert (Hin : In (10, 10) (changedSamples terrain17' image17'))
    by (vm_compute; left; reflexivity).
  assert (Huniq : forall q, In q (changedSamples terrain17' image17') -> q = (10, 10)).
  { intros q Hq. vm_compute in Hq. destruct Hq as [Hq|[]]. symmetry. exact Hq. }
  destruct (HS 10 10 Hin Huniq) as [HR _].
  split; [exact HR|].
  split; [vm_compute; reflexivity|].
  apply (HC 0 0 child17).
  - vm_compute. split; [discriminate|reflexivity].
  - vm_compute. split; [discriminate|reflexivity].
  - vm_compute. reflexivity.
  - vm_compute. reflexivity.
Defined.

(** The rectangle grown by 2^(numLodLevels-1)+1 samples on every side,
    and a patch whose vertices [px*ps .. px*ps+ps] reach into a
    rectangle. *)
Definition grownPerSide (numLodLevels : Z) (r : IntRect) : IntRect :=
  let d := 2 ^ (numLodLevels - 1) + 1 in
  mkIntRect (left_ r - d) (top_ r - d) (right_ r + d) (bottom_ r + d).

Definition extentMeets (ps px pz : Z) (r : IntRect) : bool :=
  (left_ r <=? px * ps + ps) && (px * ps <=? right_ r) &&
  (top_ r <=? pz * ps + ps) && (pz * ps <=? bottom_ r).

(** C5 (as stated) fails.  On a 17 x 17 terrain with patch size 8 and two
    LOD levels, only sample (10,10) changes.  The region (10,10,10,10) is
    grown to (8,8,13,13): by 2 on the left and top, not by 3.  The patch
    (0,0), whose vertices run to column and row 8, reaches into the
    rectangle grown by 3 per side, and also into the rectangle the code
    grows, but is not marked dirty; only patch (1,1) is. *)
Lemma partial_update_is_one_sided :
  plan_updateAll (planGeometry terrain17') = false /\
  changedSamples terrain17' image17' = [(10, 10)] /\
  plan_numLodLevels (planGeometry terrain17') = 2 /\
  expandRegion 2 (updateRegionOf terrain17' image17') = mkIntRect 8 8 13 13 /\
  grownPerSide 2 (updateRegionOf terrain17' image17') = mkIntRect 7 7 13 13 /\
  extentMeets 8 0 0 (grownPerSide 2 (updateRegionOf terrain17' image17')) = true /\
  extentMeets 8 0 0 (expandRegion 2 (updateRegionOf terrain17' image17')) = true /\
  patchDirty terrain17' image17' 0 0 = false /\
  dirtyPatchesOf 8 (planGeometry terrain17') (updateRegionOf terrain17' image17')
  = [false; false; false; true].
Proof. vm_compute. repeat split; reflexivity. Qed.

(* ================================================================== *)
(** ** Heightmap coordinates and world positions *)

(** The path of one heightmap coordinate [k] through the two
    conversions: to the local position [k * spacing + origin] and back by
    [RoundToInt((position - origin) / spacing)]. *)
Definition affineRoundTrip (spacing origin : f32) (k : Z) : Z :=
  RoundToInt (fdiv (fsub (fadd (fmul (of_int k) spacing) origin) origin) spacing).

(** The node is upright and its world transform is undone by the
    inverse: whatever height a world position is given, its local x and z
    are those of the local position it came from. *)
Definition upright (n : Node) : Prop :=
  forall (p : Vector3) (h : f32),
    x_ (toLocal n (mkVector3 (x_ (toWorld n p)) h (z_ (toWorld n p)))) = x_ p /\
    z_ (toLocal n (mkVector3 (x_ (toWorld n p)) h (z_ (toWorld n p)))) = z_ p.



Lemma upright_plainNode (cs : list (IntVector2 * PatchNode)) :
  upright (plainNode cs).
Proof. intros p h. split; reflexivity. Qed.






(** With the default spacing the float affine map is exact for every
    column of every height map up to 257 samples wide, at every valid
    patch size: checked by running it. *)
Definition originOf (spacing : f32) (patchSize numPatches : Z) : f32 :=
  fmul (fmul (lit (-1) (-1)) (of_int numPatches)) (fmul spacing (of_int patchSize)).

Lemma default_spacing_checked :
  forallb (fun ps =>
    forallb (fun np =>
      forallb (fun k => affineRoundTrip one (originOf one ps np) k =? k)
              (for_incl 0 (np * ps)))
      (for_incl 0 (256 / ps)))
    [4; 8; 16; 32; 64; 128] = true.
Proof. vm_compute. reflexivity. Qed.

Lemma default_spacing_roundtrip (ps np k : Z) :
  In ps [4; 8; 16; 32; 64; 128] -> 0 <= np -> np * ps <= 256 -> 0 <= k <= np * ps ->
  affineRoundTrip one (originOf one ps np) k = k.
Proof.
  intros Hps Hnp Hle Hk.
  pose proof default_spacing_checked as C.
  rewrite forallb_forall in C.
  specialize (C ps Hps). rewrite forallb_forall in C.
  assert (Hin : In np (for_incl 0 (256 / ps))).
  { apply in_for_incl. split; [lia|].
    assert (0 < ps) by (simpl in Hps; lia).
    apply Z.div_le_lower_bound; lia. }
  specialize (C np Hin). rewrite forallb_forall in C.
  apply Z.eqb_eq. apply C. apply in_for_incl. exact Hk.
Qed.

(* ================================================================== *)
(** ** Size of the height array *)

(** The height array, when allocated, has one entry per vertex of the
    last regeneration. *)
Definition heightDataSized (t : Terrain) : Prop :=
  forall d, heightData_ t = Some d ->
            Z.of_nat (length d)
            = ix_ (lastNumVertices_ t) * iy_ (lastNumVertices_ t).

Lemma length_sampleCoords (nv : IntVector2) :
  0 <= ix_ nv -> 0 <= iy_ nv ->
  Z.of_nat (length (sampleCoords nv)) = ix_ nv * iy_ nv.
Proof. apply (length_patchCoords nv). Qed.

Lemma length_fold_smoothPatch (t : Terrain) (l : list (PatchRef * bool))
      (d : list f32) :
  length (fold_left (smoothPatch t) l d) = length d.
Proof.
  revert d. induction l as [|[r b] l IH]; intros d; cbn [fold_left]; [reflexivity|].
  rewrite IH. unfold smoothPatch. destruct b; [|reflexivity].
  destruct (ownPatch t r) as [c|]; [|reflexivity].
  generalize (extentSamples
                (ix_ (TerrainPatch.coordinates_ (patch_ c)) * patchSize_ t)
                (ix_ (TerrainPatch.coordinates_ (patch_ c)) * patchSize_ t + patchSize_ t)
                (iy_ (TerrainPatch.coordinates_ (patch_ c)) * patchSize_ t)
                (iy_ (TerrainPatch.coordinates_ (patch_ c)) * patchSize_ t + patchSize_ t)).
  intros samples. revert d. induction samples as [|xz samples IHs]; intros d;
    cbn [fold_left]; [reflexivity|].
  rewrite IHs. apply length_setNth.
Qed.

Lemma plan_numVertices_bounds (t : Terrain) (img : Image) :
  heightMap_ t = Some img ->
  0 <= width_ img < 2 ^ 16 -> 0 <= height_ img < 2 ^ 16 ->
  MIN_PATCH_SIZE <= patchSize_ t ->
  1 <= ix_ (plan_numVertices (planGeometry t)) < 65536 /\
  1 <= iy_ (plan_numVertices (planGeometry t)) < 65536.
Proof.
  unfold MIN_PATCH_SIZE. change (2 ^ 16) with 65536.
  intros Hm Hw Hh Hps. unfold planGeometry. rewrite Hm.
  cbn [plan_numVertices ix_ iy_]. unfold cdiv.
  assert (Q : forall a, 0 <= a < 2 ^ 16 ->
                        1 <= Z.quot (a - 1) (patchSize_ t) * patchSize_ t + 1 < 65536).
  { intros a Ha. destruct (Z.eq_dec a 0) as [->|Hne].
    - change (0 - 1) with (- (1)). rewrite Z.quot_opp_l, Z.quot_small by lia. lia.
    - rewrite Z.quot_div_nonneg by lia.
      pose proof (Z.div_pos (a - 1) (patchSize_ t) ltac:(lia) ltac:(lia)).
      pose proof (Z.mul_div_le (a - 1) (patchSize_ t) ltac:(lia)). nia. }
  split; apply Q; assumption.
Qed.

(** After [CreateGeometry] on an attached terrain with a height map the
    height array is allocated, there is at least one vertex along each
    axis, and the array has exactly width * height entries: every index
    [heightIndex] yields is a valid subscript. *)
Lemma CreateGeometry_heightData (sc : Scene) (t : Terrain) (node : Node) (img : Image) :
  node_ t = Some node -> heightMap_ t = Some img ->
  0 <= width_ img < 2 ^ 16 -> 0 <= height_ img < 2 ^ 16 ->
  MIN_PATCH_SIZE <= patchSize_ t ->
  heightDataSized t ->
  let t' := fst (CreateGeometry sc t) in
  1 <= ix_ (numVertices_ t') /\ 1 <= iy_ (numVertices_ t') /\
  (exists d, heightData_ t' = Some d /\
             Z.of_nat (length d) = ix_ (numVertices_ t') * iy_ (numVertices_ t')) /\
  heightDataSized t'.
Proof.
  intros Hn Hm Hw Hh Hps Hinv t'.
  destruct (plan_numVertices_bounds t img Hm Hw Hh Hps) as [Bx Bz].
  assert (Hd : exists d, heightData_ (fst (prepareGeometry t node img)) = Some d /\
                         Z.of_nat (length d)
                         = ix_ (plan_numVertices (planGeometry t))
                           * iy_ (plan_numVertices (planGeometry t))).
  { unfold prepareGeometry. cbv zeta. cbn [fst].
    destruct (smoothing_ t) eqn:Hs.
    - cbn [heightData_ withHeightData].
      assert (P : exists d0, plan_heightData (planGeometry t) = Some d0 /\
                             Z.of_nat (length d0)
                             = ix_ (plan_numVertices (planGeometry t))
                               * iy_ (plan_numVertices (planGeometry t))).
      { revert Bx Bz. unfold planGeometry. rewrite Hm.
        cbn [plan_heightData plan_numVertices]. intros Bx Bz.
        assert (F : Z.of_nat (length (newFloats
                      (u32 ((ix_ (mkIntVector2 (cdiv (width_ img - 1) (patchSize_ t))
                                               (cdiv (height_ img - 1) (patchSize_ t)))
                             * patchSize_ t + 1)
                            * (iy_ (mkIntVector2 (cdiv (width_ img - 1) (patchSize_ t))
                                                 (cdiv (height_ img - 1) (patchSize_ t)))
                               * patchSize_ t + 1)))))
                    = (cdiv (width_ img - 1) (patchSize_ t) * patchSize_ t + 1)
                      * (cdiv (height_ img - 1) (patchSize_ t) * patchSize_ t + 1)).
        { unfold newFloats. rewrite repeat_length. cbn [ix_ iy_] in *.
          unfold u32. change (2 ^ 32) with 4294967296.
          rewrite Z.mod_small by nia. rewrite Z2Nat.id by nia. reflexivity. }
        cbn [ix_ iy_] in *.
        destruct (heightData_ t) as [d|] eqn:Ed.
        - match goal with
          | |- context [if ?b then _ else _] => destruct b eqn:Eu
          end.
          + eexists. split; [reflexivity|exact F].
          + exists d. split; [reflexivity|].
            rewrite (Hinv d Ed).
            apply orb_false_iff in Eu. destruct Eu as [Eu _].
            apply orb_false_iff in Eu. destruct Eu as [Eu _].
            unfold IntVector2_ne in Eu. apply negb_false_iff in Eu.
            apply IntVector2_eqb_eq in Eu. rewrite <- Eu. reflexivity.
        - eexists. split; [reflexivity|exact F]. }
      destruct P as [d0 [P1 P2]]. rewrite P1.
      eexists. split; [reflexivity|]. rewrite length_fold_smoothPatch. exact P2.
    - cbn [heightData_]. eexists. split; [reflexivity|].
      unfold copyHeightData. cbn [fst]. rewrite length_map.
      apply length_sampleCoords; lia. }
  destruct Hd as [d [Hd1 Hd2]].
  assert (Hl : lastNumVertices_ (fst (prepareGeometry t node img))
               = plan_numVertices (planGeometry t)).
  { unfold prepareGeometry. cbv zeta. cbn [fst]. destruct (smoothing_ t); reflexivity. }
  destruct (CreateGeometry_layout sc t node img Hn Hm) as [_ [L2 _]].
  fold t' in L2.
  assert (Hh' : heightData_ t' = Some d /\ lastNumVertices_ t' = plan_numVertices (planGeometry t)).
  { subst t'. unfold CreateGeometry. rewrite Hn, Hm.
    destruct (prepareGeometry t node img) as [t2 dirty]. cbn [fst] in *.
    pose proof (fold_buildPatch_config sc (combine (patches_ t2) dirty) t2) as Hc.
    remember (fold_left (buildPatch sc) (combine (patches_ t2) dirty) t2) as t3.
    split.
    - change (heightData_ t3) with (heightData_ (configOf t3)). rewrite Hc. exact Hd1.
    - change (lastNumVertices_ t3) with (lastNumVertices_ (configOf t3)).
      rewrite Hc. exact Hl. }
  destruct Hh' as [H1 H2]. rewrite L2.
  split; [lia|]. split; [lia|]. split.
  - exists d. split; [exact H1|exact Hd2].
  - intros d' Hd'. rewrite H1 in Hd'. inversion Hd'; subst d'.
    rewrite H2. exact Hd2.
Qed.

(** The terrain as constructed has no height array. *)
Lemma Terrain_new_heightDataSized : heightDataSized Terrain_new.
Proof. intros d H. discriminate H. Qed.
